(** * kimi-writer-tau: the front end's decision logic and the orchestration
      contracts it talks to.

    The React components are embedded as pure functions over their props and
    [useState] cells: an event handler takes the cells it reads and returns the
    cells it writes together with the callbacks it fires.  JavaScript strings
    are sequences of UTF-16 code units, numbers are IEEE doubles seen as
    rationals plus the three non-finite values, object literals are finite
    maps from property names to values. *)

From Stdlib Require Import QArith Qminmax Lqa.
From stdpp Require Import gmap strings list.

Local Open Scope Z_scope.

(** ** JavaScript values *)

Module JS.

(** A string is its sequence of UTF-16 code units. *)
Definition jsstring : Type := list N.

(** ASCII literals of the source, as code units. *)
Definition str (s : string) : jsstring :=
  List.map Ascii.N_of_ascii (String.list_ascii_of_string s).

(** WhiteSpace and LineTerminator code points, the set [String.prototype.trim]
    strips: TAB, LF, VT, FF, CR, SP, NBSP, the Unicode space separators,
    LS, PS and the byte order mark. *)
Definition isWhiteSpace (c : N) : bool :=
  ((9 <=? c) && (c <=? 13) || (c =? 32) || (c =? 160) || (c =? 5760)
   || (8192 <=? c) && (c <=? 8202) || (c =? 8232) || (c =? 8233)
   || (c =? 8239) || (c =? 8287) || (c =? 12288) || (c =? 65279))%N.

Fixpoint trimStart (s : jsstring) : jsstring :=
  match s with
  | [] => []
  | c :: s' => if isWhiteSpace c then trimStart s' else s
  end.

Definition trimEnd (s : jsstring) : jsstring := rev (trimStart (rev s)).

(** [s.trim()] *)
Definition trim (s : jsstring) : jsstring := trimEnd (trimStart s).

(** What trimming means, independently of how it is computed: [t] is [s]
    without a run of white space at each end, and [t] neither starts nor
    ends with white space. *)
Definition is_trim_of (s t : jsstring) : Prop :=
  exists pre post,
    s = pre ++ t ++ post
    /\ forallb isWhiteSpace pre = true
    /\ forallb isWhiteSpace post = true
    /\ (forall c, head t = Some c -> isWhiteSpace c = false)
    /\ (forall c, last t = Some c -> isWhiteSpace c = false).

(** [s.length] *)
Definition strlen (s : jsstring) : Z := Z.of_nat (length s).

(** A number: NaN, the two infinities, or a finite double, which is a
    rational. *)
Inductive number : Type :=
  | NaN
  | NegInf
  | Fin (q : Q)
  | PosInf.

Definition Qltb (p q : Q) : bool := negb (Qle_bool q p).

(** [a < b]: false as soon as one side is NaN. *)
Definition lt (a b : number) : bool :=
  match a, b with
  | NaN, _ | _, NaN => false
  | PosInf, _ => false
  | _, NegInf => false
  | NegInf, _ => true
  | _, PosInf => true
  | Fin p, Fin q => Qltb p q
  end.

(** [a > b] *)
Definition gt (a b : number) : bool := lt b a.

(** [Math.min(a, b)]: NaN if either argument is, else the smaller one. *)
Definition Math_min (a b : number) : number :=
  match a, b with
  | NaN, _ | _, NaN => NaN
  | _, _ => if lt b a then b else a
  end.

(** ToBoolean on numbers and strings. *)
Definition truthy_number (n : number) : bool :=
  match n with
  | NaN => false
  | Fin q => negb (Qeq_bool q 0)
  | NegInf | PosInf => true
  end.

Definition truthy_string (s : jsstring) : bool :=
  match s with [] => false | _ => true end.

(** The primitive values that occur in the objects of this program. *)
Inductive value : Type :=
  | VUndefined
  | VNull
  | VBool (b : bool)
  | VNum (n : number)
  | VStr (s : jsstring).

(** [a === b] against a string constant. *)
Definition strict_eq_str (a : value) (s : jsstring) : bool :=
  match a with
  | VStr t => bool_decide (t = s)
  | _ => false
  end.

(** [s || undefined] for a string [s]. *)
Definition or_undefined (s : jsstring) : option jsstring :=
  if truthy_string s then Some s else None.

(** Decimal digits of a non-negative integer, as the template literal
    prints it. *)
Fixpoint uint_units (u : Decimal.uint) : jsstring :=
  match u with
  | Decimal.Nil => []
  | Decimal.D0 u' => 48%N :: uint_units u'
  | Decimal.D1 u' => 49%N :: uint_units u'
  | Decimal.D2 u' => 50%N :: uint_units u'
  | Decimal.D3 u' => 51%N :: uint_units u'
  | Decimal.D4 u' => 52%N :: uint_units u'
  | Decimal.D5 u' => 53%N :: uint_units u'
  | Decimal.D6 u' => 54%N :: uint_units u'
  | Decimal.D7 u' => 55%N :: uint_units u'
  | Decimal.D8 u' => 56%N :: uint_units u'
  | Decimal.D9 u' => 57%N :: uint_units u'
  end.

Definition decimal (n : N) : jsstring := uint_units (N.to_uint n).

(** [Array.prototype.findIndex]: the index of the first element that
    satisfies the predicate, and -1 when there is none. *)
Fixpoint findIndex_from {A : Type} (p : A -> bool) (l : list A) (i : Z) : Z :=
  match l with
  | [] => -1
  | x :: l' => if p x then i else findIndex_from p l' (i + 1)
  end.

Definition findIndex {A : Type} (p : A -> bool) (l : list A) : Z :=
  findIndex_from p l 0.

(** [Array.prototype.find] *)
Fixpoint find {A : Type} (p : A -> bool) (l : list A) : option A :=
  match l with
  | [] => None
  | x :: l' => if p x then Some x else find p l'
  end.

Fixpoint startsWith (s t : jsstring) : bool :=
  match t, s with
  | [], _ => true
  | _ :: _, [] => false
  | b :: t', a :: s' => (a =? b)%N && startsWith s' t'
  end.

(** [s.includes(t)]: [t] occurs somewhere in [s]. *)
Fixpoint includes (s t : jsstring) : bool :=
  startsWith s t ||
  match s with
  | [] => false
  | _ :: s' => includes s' t
  end.

(** A non-negative safe integer: a whole number below 2^53.  A double holds
    every such number exactly and a template literal prints it in plain
    decimal digits. *)
Record SafeNat : Type := {
  safe_value : N;
  safe_bound : (safe_value <? 9007199254740992)%N = true
}.

(** A parsed JSON value.  A number comes with the text the host prints for
    it; of an object only its being an object matters to the conversions
    below. *)
#[warnings="-register-all"]
Inductive Json : Type :=
  | JNull
  | JBool (b : bool)
  | JNumber (n : number) (printed : jsstring)
  | JString (s : jsstring)
  | JArray (items : list Json)
  | JObject.

(** ToBoolean on a parsed value: arrays and objects are truthy. *)
Definition truthy_json (j : Json) : bool :=
  match j with
  | JNull => false
  | JBool b => b
  | JNumber n _ => truthy_number n
  | JString s => truthy_string s
  | JArray _ => true
  | JObject => true
  end.

(** [Array.prototype.join] on strings. *)
Fixpoint join (sep : jsstring) (l : list jsstring) : jsstring :=
  match l with
  | [] => []
  | [x] => x
  | x :: rest => x ++ sep ++ join sep rest
  end.

(** ToString on a parsed value: an array is its elements joined by commas,
    with [null] elements as the empty string; an object is
    "[object Object]". *)
Fixpoint ToString (j : Json) : jsstring :=
  match j with
  | JNull => str "null"
  | JBool b => if b then str "true" else str "false"
  | JNumber _ printed => printed
  | JString s => s
  | JArray items =>
      join (str ",")
        (List.map (fun x => match x with
                            | JNull => []
                            | _ => ToString x
                            end) items)
  | JObject => str "[object Object]"
  end.

(** An object literal: property names to values. *)
Abbreviation obj := (gmap string value).

(** What [JSON.stringify] keeps of an object of primitives: properties whose
    value is [undefined] are dropped, non-finite numbers become [null]. *)
Definition json_value (v : value) : option value :=
  match v with
  | VUndefined => None
  | VNum (Fin q) => Some (VNum (Fin q))
  | VNum _ => Some VNull
  | _ => Some v
  end.

Definition JSON_stringify (o : obj) : obj := omap json_value o.

(** [s.replace(pat, rep)] for a string pattern and a replacement without
    [$] patterns: the first occurrence of [pat] is replaced, and a string
    without occurrence is returned as it is. *)
Fixpoint replace (s pat rep : jsstring) {struct s} : jsstring :=
  if startsWith s pat then rep ++ drop (length pat) s
  else match s with
       | [] => []
       | c :: s' => c :: replace s' pat rep
       end.

(** [a || b] for a string or [undefined] on the left. *)
Definition or_else (a : option jsstring) (b : jsstring) : jsstring :=
  match a with
  | Some m => if truthy_string m then m else b
  | None => b
  end.

(** A string or [undefined] spliced into a template literal. *)
Definition template_of (a : option jsstring) : jsstring :=
  match a with
  | Some m => m
  | None => str "undefined"
  end.

End JS.

Import JS.

(** ** ApprovalModal (components/ApprovalModal.jsx) *)

Module ApprovalModal.

Inductive Icon : Type := FileText | AlertCircle.

(** The part of [approvalData] the modal reads: [chunk_number], the backend's
    index of the chunk under review, a whole number in the safe range, or
    nothing when the payload has none. *)
Record ApprovalData : Type := { chunk_number : option SafeNat }.

Record ApprovalInfo : Type := {
  title : jsstring;
  icon : Icon;
  description : jsstring;
  files : list jsstring
}.

(** [approvalData?.chunk_number || '?'], spliced into a template literal. *)
Definition chunk_label (approvalData : option ApprovalData) : jsstring :=
  match approvalData with
  | Some d =>
      match chunk_number d with
      | Some n =>
          if (safe_value n =? 0)%N then str "?" else decimal (safe_value n)
      | None => str "?"
      end
  | None => str "?"
  end.

Definition getApprovalInfo (approvalType : value)
    (approvalData : option ApprovalData) : ApprovalInfo :=
  if strict_eq_str approvalType (str "plan") then
    {| title := str "Plan Approval Required";
       icon := FileText;
       description := str "The planning phase is complete. Please review the plan materials before proceeding to the writing phase.";
       files := [ str "summary.txt - Story summary";
                  str "dramatis_personae.txt - Character descriptions";
                  str "story_structure.txt - Three-act structure";
                  str "plot_outline.txt - Chunk-by-chunk outline" ] |}
  else if strict_eq_str approvalType (str "chunk") then
    {| title := str "Chunk " ++ chunk_label approvalData ++ str " Approval";
       icon := FileText;
       description := str "This chunk has been written and reviewed. Please approve it to continue to the next chunk.";
       files := [ str "chunk_" ++ chunk_label approvalData
                    ++ str ".txt - Chunk content" ] |}
  else
    {| title := str "Approval Required";
       icon := AlertCircle;
       description := str "Please review and approve to continue.";
       files := [] |}.

(** An entry of [files] reads "<artifact> - <what it is>"; the artifact name
    is the text before the first space. *)
Fixpoint artifact_of (entry : jsstring) : jsstring :=
  match entry with
  | [] => []
  | c :: rest => if (c =? 32)%N then [] else c :: artifact_of rest
  end.

(** The object handed to [onApprove] / [onReject]. *)
Record Decision : Type := {
  approved : bool;
  notes : option jsstring
}.

Inductive Callback : Type :=
  | onApprove (d : Decision)
  | onReject (d : Decision).

(** Each handler fires one callback and then clears the notes cell; the
    result is the callback and the new content of the cell. *)
Definition handleApprove (notes : jsstring) : Callback * jsstring :=
  (onApprove {| approved := true; notes := or_undefined (trim notes) |},
   str "").

Definition handleReject (notes : jsstring) : Callback * jsstring :=
  (onReject {| approved := false; notes := or_undefined (trim notes) |},
   str "").

(** The two buttons of the footer. *)
Inductive Button : Type := ApproveButton | RejectButton.

Definition click (b : Button) (notes : jsstring) : Callback * jsstring :=
  match b with
  | ApproveButton => handleApprove notes
  | RejectButton => handleReject notes
  end.

Definition decision_of (c : Callback) : Decision :=
  match c with onApprove d | onReject d => d end.

(** What it means for a chunk approval to list the single file chunk_N.txt
    of a chunk N. *)
Definition lists_chunk_file (approvalData : option ApprovalData) : Prop :=
  exists n : N,
    List.map artifact_of
      (files (getApprovalInfo (VStr (str "chunk")) approvalData))
    = [ str "chunk_" ++ decimal n ++ str ".txt" ].

(** [info.files.length > 0], the condition of the "Files to Review" box. *)
Definition showFiles (info : ApprovalInfo) : bool :=
  (0 <? Z.of_nat (length (files info))).

(** A decision as the object it is. *)
Definition decision_obj (d : Decision) : obj :=
  <["approved" := VBool (approved d)]>
  (<["notes" := match notes d with
                | Some t => VStr t
                | None => VUndefined
                end]> ∅).

End ApprovalModal.

(** ** ProgressDashboard (components/ProgressDashboard.jsx) *)

Module ProgressDashboard.

Inductive Icon : Type := FileText | CheckCircle | Zap.

Record PhaseInfo : Type := {
  name : jsstring;
  label : jsstring;
  icon : Icon
}.

Definition phases : list PhaseInfo :=
  [ {| name := str "PLANNING"; label := str "Planning"; icon := FileText |};
    {| name := str "PLAN_CRITIQUE"; label := str "Plan Review";
       icon := CheckCircle |};
    {| name := str "WRITING"; label := str "Writing"; icon := Zap |};
    {| name := str "WRITE_CRITIQUE"; label := str "Chunk Review";
       icon := CheckCircle |} ].

(** [phases.findIndex((p) => p.name === phase)] *)
Definition getCurrentPhaseIndex (phase : value) : Z :=
  findIndex (fun p => strict_eq_str phase (name p)) phases.

(** One step of the phase tracker as the [phases.map] callback renders it:
    the classes of the circle and of the label, and the class of the
    connector bar that follows every step but the last. *)
Record Step : Type := {
  key : jsstring;
  isActive : bool;
  isCompleted : bool;
  circleClass : jsstring;
  labelClass : jsstring;
  labelText : jsstring;
  connectorClass : option jsstring
}.

Definition renderStep (currentPhaseIndex : Z) (i : nat)
    (phaseInfo : PhaseInfo) : Step :=
  let index := Z.of_nat i in
  let isActive := index =? currentPhaseIndex in
  let isCompleted := index <? currentPhaseIndex in
  {| key := name phaseInfo;
     isActive := isActive;
     isCompleted := isCompleted;
     circleClass :=
       if isActive then str "bg-blue-600 text-white"
       else if isCompleted then str "bg-green-600 text-white"
       else str "bg-gray-200 text-gray-400";
     labelClass :=
       if isActive then str "text-blue-600"
       else if isCompleted then str "text-green-600"
       else str "text-gray-400";
     labelText := label phaseInfo;
     connectorClass :=
       if index <? Z.of_nat (length phases) - 1
       then Some (if isCompleted then str "bg-green-600"
                  else str "bg-gray-200")
       else None |}.

Definition renderPhaseSteps (phase : value) : list Step :=
  imap (renderStep (getCurrentPhaseIndex phase)) phases.

(** A step that is neither active nor completed is drawn in grey. *)
Definition not_started (s : Step) : Prop :=
  isActive s = false /\ isCompleted s = false
  /\ circleClass s = str "bg-gray-200 text-gray-400"
  /\ labelClass s = str "text-gray-400".

(** The context-usage bar: its colour class and its width in percent. *)
Inductive BarColor : Type := bg_red_600 | bg_yellow_600 | bg_blue_600.

Definition tokenBarColor (tokenPercentage : number) : BarColor :=
  if gt tokenPercentage (Fin 90) then bg_red_600
  else if gt tokenPercentage (Fin 75) then bg_yellow_600
  else bg_blue_600.

Definition tokenBarWidth (tokenPercentage : number) : number :=
  Math_min tokenPercentage (Fin 100).

(** The bar is part of the dashboard only when [tokenLimit > 0]. *)
Definition tokenUsageBar (tokenLimit tokenPercentage : number)
    : option (BarColor * number) :=
  if gt tokenLimit (Fin 0)
  then Some (tokenBarColor tokenPercentage, tokenBarWidth tokenPercentage)
  else None.

(** The status header: each of the three badges has its own condition. *)
Inductive StatusBadge : Type := Active | Paused | Idle.

Definition statusBadges (isGenerating isPaused : bool) : list StatusBadge :=
  (if isGenerating && negb isPaused then [Active] else [])
  ++ (if isPaused then [Paused] else [])
  ++ (if negb isGenerating && negb isPaused then [Idle] else []).

(** How alarming a colour of the usage bar is. *)
Definition severity (c : BarColor) : nat :=
  match c with
  | bg_blue_600 => 0
  | bg_yellow_600 => 1
  | bg_red_600 => 2
  end.

End ProgressDashboard.

(** ** ProjectBrowser (pages/ProjectBrowser.jsx) *)

Module ProjectBrowser.

Record Project : Type := {
  project_id : jsstring;
  project_name : jsstring;
  theme : jsstring;
  phase : jsstring
}.

(** The page's [useState] cells. *)
Record State : Type := {
  projects : list Project;
  filteredProjects : list Project;
  searchQuery : jsstring;
  filterPhase : jsstring;
  deleteConfirm : option jsstring
}.

(** How the promise returned by [api.deleteProject] settles. *)
Inductive Settled : Type :=
  | Resolved
  | Rejected (error : jsstring).

Inductive Log : Type := console_error (msg : jsstring) (error : jsstring).

Section Browser.

(** [String.prototype.toLowerCase] is left to the host. *)
Variable toLowerCase : jsstring -> jsstring.

Definition matchesQuery (q : jsstring) (p : Project) : bool :=
  includes (toLowerCase (project_name p)) (toLowerCase q)
  || includes (toLowerCase (theme p)) (toLowerCase q).

(** The effect on [searchQuery], [filterPhase] and [projects]. *)
Definition filterProjects (st : State) : State :=
  let filtered := projects st in
  let filtered :=
    if truthy_string (searchQuery st)
    then List.filter (matchesQuery (searchQuery st)) filtered
    else filtered in
  let filtered :=
    if negb (bool_decide (filterPhase st = str "all"))
    then List.filter (fun p => bool_decide (phase p = filterPhase st)) filtered
    else filtered in
  {| projects := projects st;
     filteredProjects := filtered;
     searchQuery := searchQuery st;
     filterPhase := filterPhase st;
     deleteConfirm := deleteConfirm st |}.

(** [handleDelete(projectId)], continued from the [await] once the request
    has settled.  The two setters run only on the resolved branch, after
    which the effect on [projects] recomputes the displayed list; the
    [catch] branch only logs. *)
Definition handleDelete (projectId : jsstring) (settled : Settled)
    (st : State) : State * list Log :=
  match settled with
  | Resolved =>
      (filterProjects
         {| projects :=
              List.filter
                (fun p => negb (bool_decide (project_id p = projectId)))
                (projects st);
            filteredProjects := filteredProjects st;
            searchQuery := searchQuery st;
            filterPhase := filterPhase st;
            deleteConfirm := None |},
       [])
  | Rejected error =>
      (st, [console_error (str "Failed to delete project:") error])
  end.

(** The page with its two remaining cells. *)
Record Page : Type := {
  cells : State;
  loading : bool;
  viewMode : jsstring
}.

(** How the promise returned by [api.listProjects] settles: with the parsed
    response object, whose [projects] property may be missing, or with an
    error. *)
Inductive Listed : Type :=
  | ListResolved (data_projects : option (list Project))
  | ListRejected (error : jsstring).

(** [loadProjects()]: [setLoading(true)] before the [await]; then either
    [setProjects(data.projects || [])], after which the effect on [projects]
    recomputes the displayed list, or the logging [catch]; and
    [setLoading(false)] in the [finally]. *)
Definition loadProjects_start (pg : Page) : Page :=
  {| cells := cells pg; loading := true; viewMode := viewMode pg |}.

Definition loadProjects_settle (listed : Listed) (pg : Page)
    : Page * list Log :=
  match listed with
  | ListResolved data_projects =>
      ({| cells :=
            filterProjects
              {| projects := match data_projects with
                             | Some l => l
                             | None => []
                             end;
                 filteredProjects := filteredProjects (cells pg);
                 searchQuery := searchQuery (cells pg);
                 filterPhase := filterPhase (cells pg);
                 deleteConfirm := deleteConfirm (cells pg) |};
          loading := false;
          viewMode := viewMode pg |},
       [])
  | ListRejected error =>
      ({| cells := cells pg; loading := false; viewMode := viewMode pg |},
       [console_error (str "Failed to load projects:") error])
  end.

Definition loadProjects (listed : Listed) (pg : Page) : Page * list Log :=
  loadProjects_settle listed (loadProjects_start pg).

(** What the main area shows. *)
Inductive MainView : Type :=
  | LoadingView
  | EmptyView (headline hint : jsstring) (createButton : bool)
  | GridView (shown : list Project)
  | ListView (shown : list Project).

Definition mainView (pg : Page) : MainView :=
  if loading pg then LoadingView
  else if (Z.of_nat (length (filteredProjects (cells pg))) =? 0) then
    let none := (Z.of_nat (length (projects (cells pg))) =? 0) in
    EmptyView
      (if none then str "No projects yet" else str "No matching projects")
      (if none then str "Create your first novel project to get started"
       else str "Try adjusting your filters")
      none
  else if bool_decide (viewMode pg = str "grid")
  then GridView (filteredProjects (cells pg))
  else ListView (filteredProjects (cells pg)).

End Browser.

End ProjectBrowser.

(** ** REST client (services/api.js) *)

Module Api.

(** [import.meta.env.VITE_API_URL || 'http://localhost:8000/api'] *)
Definition API_BASE_URL (VITE_API_URL : option jsstring) : jsstring :=
  or_else VITE_API_URL (str "http://localhost:8000/api").

(** The [options] argument of [apiFetch]; a missing property is [None]. *)
Record Options : Type := {
  headers : option (gmap string jsstring);
  method : option jsstring;
  body : option obj
}.

(** What is handed to [fetch]. *)
Record Request : Type := {
  url : jsstring;
  req_headers : gmap string jsstring;
  req_method : option jsstring;
  req_body : option obj
}.

(** The request [apiFetch(endpoint, options)] sends.  [config] is
    [{headers: {'Content-Type': 'application/json', ...options.headers},
      ...options}]: the merged headers come first and the spread of
    [options] after them, so a [headers] property of [options] replaces the
    merged object. *)
Definition request (base endpoint : jsstring) (options : Options) : Request :=
  let merged : gmap string jsstring :=
    match headers options with
    | Some h => h ∪ {[ "Content-Type" := str "application/json" ]}
    | None => {[ "Content-Type" := str "application/json" ]}
    end in
  {| url := base ++ endpoint;
     req_headers := match headers options with
                    | Some h => h
                    | None => merged
                    end;
     req_method := method options;
     req_body := body options |}.

(** The body of an error response when it parses to an object, of which the
    client reads [error] and [detail]; each is any JSON value, or missing
    ([None]).  A body that parses to a string, a number, a boolean or an
    array has neither property and reads as the object without them; the
    body [null], on which the property read itself throws, is left out. *)
Record ErrorData : Type := {
  error : option Json;
  detail : option Json
}.

(** What [fetch] and [response.json()] come back with: [fetch] itself
    rejects; or the response is ok and its body either fails to parse (with
    the parser's message) or yields a value; or the response is not ok, with
    its status and its body if that parses. *)
Inductive Fetched (A : Type) : Type :=
  | fetch_failed (message : jsstring)
  | http_ok (json : jsstring + A)
  | http_error (status : SafeNat) (errorData : option ErrorData).

Arguments fetch_failed {A} _.
Arguments http_ok {A} _.
Arguments http_error {A} _ _.

Inductive Settled (A : Type) : Type :=
  | resolved (a : A)
  | rejected (message : jsstring).

Arguments resolved {A} _.
Arguments rejected {A} _.

Inductive Log : Type := console_error (label message : jsstring).

(** [a || b] where [a] is a property of the parsed body; the result is
    what [new Error] makes of the chosen operand, its ToString. *)
Definition json_or_else (a : option Json) (b : jsstring) : jsstring :=
  match a with
  | Some j => if truthy_json j then ToString j else b
  | None => b
  end.

(** The message of
    [new Error(errorData.error || errorData.detail
               || `HTTP ${response.status}`)],
    where an unreadable body counts as [{}]. *)
Definition error_message (status : SafeNat) (errorData : option ErrorData)
    : jsstring :=
  let d := match errorData with
           | Some d => d
           | None => {| error := None; detail := None |}
           end in
  json_or_else (error d)
    (json_or_else (detail d)
       (str "HTTP " ++ decimal (safe_value status))).

(** [apiFetch]: how it settles and what it logs. *)
Definition apiFetch {A : Type} (endpoint : jsstring) (fetched : Fetched A)
    : Settled A * list Log :=
  let failed m :=
    (rejected m,
     [console_error (str "API Error [" ++ endpoint ++ str "]:") m]) in
  match fetched with
  | fetch_failed m => failed m
  | http_ok (inr v) => (resolved v, [])
  | http_ok (inl m) => failed m
  | http_error status errorData => failed (error_message status errorData)
  end.

Definition no_options : Options :=
  {| headers := None; method := None; body := None |}.

Definition createProject (base : jsstring) (config : obj) : Request :=
  request base (str "/config")
    {| headers := None; method := Some (str "POST");
       body := Some (JSON_stringify config) |}.

Definition listProjects (base : jsstring) : Request :=
  request base (str "/projects") no_options.

Definition getProject (base projectId : jsstring) : Request :=
  request base (str "/projects/" ++ projectId) no_options.

Definition deleteProject (base projectId : jsstring) : Request :=
  request base (str "/projects/" ++ projectId)
    {| headers := None; method := Some (str "DELETE"); body := None |}.

Definition getProjectState (base projectId : jsstring) : Request :=
  request base (str "/projects/" ++ projectId ++ str "/state") no_options.

Definition submitApproval (base projectId : jsstring) (decision : obj)
    : Request :=
  request base (str "/projects/" ++ projectId ++ str "/approve")
    {| headers := None; method := Some (str "POST");
       body := Some (JSON_stringify decision) |}.

(** The URL [healthCheck] fetches. *)
Definition healthCheck_url (base : jsstring) : jsstring :=
  replace base (str "/api") (str "/health").

End Api.

(** ** ConfigPanel (components/ConfigPanel.jsx) *)

Module ConfigPanel.

(** The [config] cell.  Text fields hold a string or [null] ([None]); the
    word count is [null] until a positive integer has been typed. *)
Record Config : Type := {
  project_name : option jsstring;
  theme : option jsstring;
  model_id : jsstring;
  novel_length : option jsstring;
  custom_word_count : option number;
  genre : option jsstring;
  writing_sample_id : option jsstring;
  custom_writing_sample : option jsstring;
  max_plan_critique_iterations : number;
  max_write_critique_iterations : number;
  require_plan_approval : bool;
  require_chunk_approval : bool
}.

(** The initial state when no [initialConfig] is passed. *)
Definition defaultConfig : Config :=
  {| project_name := Some (str "");
     theme := Some (str "");
     model_id := str "kimi-k2-thinking";
     novel_length := Some (str "novel");
     custom_word_count := None;
     genre := Some (str "");
     writing_sample_id := None;
     custom_writing_sample := Some (str "");
     max_plan_critique_iterations := Fin 2;
     max_write_critique_iterations := Fin 2;
     require_plan_approval := true;
     require_chunk_approval := false |}.

Record State : Type := {
  config : Config;
  errors : gmap string jsstring
}.

Inductive Callback : Type := onSave (c : Config).

(** [!s?.trim()] *)
Definition blank (s : option jsstring) : bool :=
  match s with
  | None => true
  | Some t => negb (truthy_string (trim t))
  end.

(** [!n || n < 1000] *)
Definition word_count_too_small (n : option number) : bool :=
  match n with
  | None => true
  | Some k => negb (truthy_number k) || lt k (Fin 1000)
  end.

(** [s && s.length < 100] *)
Definition sample_too_short (s : option jsstring) : bool :=
  match s with
  | None => false
  | Some t => truthy_string t && (strlen t <? 100)
  end.

(** [validate()]: the [newErrors] object it builds and passes to
    [setErrors], and its return value
    [Object.keys(newErrors).length === 0]. *)
Definition newErrors (c : Config) : gmap string jsstring :=
  let e : gmap string jsstring := ∅ in
  let e := if blank (project_name c)
           then <["project_name" := str "Project name is required"]> e
           else e in
  let e := if blank (theme c)
           then <["theme" := str "Theme is required"]> e
           else e in
  let e := if bool_decide (novel_length c = Some (str "custom"))
           then if word_count_too_small (custom_word_count c)
                then <["custom_word_count" :=
                         str "Word count must be at least 1,000 words"]> e
                else e
           else e in
  let e := if sample_too_short (custom_writing_sample c)
           then <["custom_writing_sample" :=
                    str "Writing sample must be at least 100 characters"]> e
           else e in
  e.

Definition validate (st : State) : State * bool :=
  let e := newErrors (config st) in
  ({| config := config st; errors := e |}, bool_decide (size e = 0%nat)).

(** [handleSubmit]: the state it leaves and the callbacks it fires. *)
Definition handleSubmit (st : State) : State * list Callback :=
  let '(st', ok) := validate st in
  if negb ok then (st', [])
  else (st', [onSave (config st')]).

(** The config as the object it is, property by property. *)
Definition opt_value {A : Type} (f : A -> value) (o : option A) : value :=
  match o with
  | Some a => f a
  | None => VNull
  end.

Definition config_obj (c : Config) : obj :=
  <["project_name" := opt_value VStr (project_name c)]>
  (<["theme" := opt_value VStr (theme c)]>
  (<["model_id" := VStr (model_id c)]>
  (<["novel_length" := opt_value VStr (novel_length c)]>
  (<["custom_word_count" := opt_value VNum (custom_word_count c)]>
  (<["genre" := opt_value VStr (genre c)]>
  (<["writing_sample_id" := opt_value VStr (writing_sample_id c)]>
  (<["custom_writing_sample" := opt_value VStr (custom_writing_sample c)]>
  (<["max_plan_critique_iterations" :=
       VNum (max_plan_critique_iterations c)]>
  (<["max_write_critique_iterations" :=
       VNum (max_write_critique_iterations c)]>
  (<["require_plan_approval" := VBool (require_plan_approval c)]>
  (<["require_chunk_approval" := VBool (require_chunk_approval c)]>
   ∅))))))))))).

(** Modelled from the spec: the parent of the form in create mode, which is
    not under src/.  ConfigPanel only calls [onSave(config)]; the parent is
    taken to post that config with [api.createProject], whose body is the
    JSON of the object. *)
Definition request_body (c : Config) : obj := JSON_stringify (config_obj c).

(** What the form accepts, in the words of the interface: both names
    non-blank after trimming, a custom length with a word count of at least
    1000, a writing sample either empty or of at least 100 code units. *)
Definition non_blank (s : option jsstring) : Prop :=
  exists t, s = Some t /\ trim t <> [].

Definition at_least_1000 (n : option number) : Prop :=
  match n with
  | Some (Fin q) => (1000 <= q)%Q
  | Some PosInf => True
  | _ => False
  end.

Definition sample_long_enough (s : option jsstring) : Prop :=
  match s with
  | Some t => t = [] \/ (100 <= length t)%nat
  | None => True
  end.

Definition valid (c : Config) : Prop :=
  non_blank (project_name c)
  /\ non_blank (theme c)
  /\ (novel_length c = Some (str "custom") ->
      at_least_1000 (custom_word_count c))
  /\ sample_long_enough (custom_writing_sample c).

(** The two cells of the form while it is edited.  [handleChange] stores
    [undefined] under a field's name to clear its error, so an entry of the
    error object is a message or [undefined] ([None]). *)
Record Form : Type := {
  form_config : Config;
  form_errors : gmap string (option jsstring)
}.

(** [errors[field]], as a condition. *)
Definition error_shown (e : gmap string (option jsstring)) (field : string)
    : bool :=
  match e !! field with
  | Some (Some m) => truthy_string m
  | _ => false
  end.

(** The [onChange] handlers of the inputs, each with what it passes to
    [handleChange]: the text of the input; for the word count
    [parseInt(e.target.value) || null], for the sample selector
    [e.target.value || null], for the two caps [parseInt(e.target.value)]
    ([parsed] is the result of [parseInt]); and the state of a checkbox. *)
Inductive Edit : Type :=
  | EditProjectName (v : jsstring)
  | EditTheme (v : jsstring)
  | EditGenre (v : jsstring)
  | EditModelId (v : jsstring)
  | EditNovelLength (v : jsstring)
  | EditCustomWordCount (parsed : number)
  | EditWritingSampleId (v : jsstring)
  | EditCustomWritingSample (v : jsstring)
  | EditMaxPlanCritiqueIterations (parsed : number)
  | EditMaxWriteCritiqueIterations (parsed : number)
  | EditRequirePlanApproval (checked : bool)
  | EditRequireChunkApproval (checked : bool).

Definition field_of (e : Edit) : string :=
  match e with
  | EditProjectName _ => "project_name"
  | EditTheme _ => "theme"
  | EditGenre _ => "genre"
  | EditModelId _ => "model_id"
  | EditNovelLength _ => "novel_length"
  | EditCustomWordCount _ => "custom_word_count"
  | EditWritingSampleId _ => "writing_sample_id"
  | EditCustomWritingSample _ => "custom_writing_sample"
  | EditMaxPlanCritiqueIterations _ => "max_plan_critique_iterations"
  | EditMaxWriteCritiqueIterations _ => "max_write_critique_iterations"
  | EditRequirePlanApproval _ => "require_plan_approval"
  | EditRequireChunkApproval _ => "require_chunk_approval"
  end.

(** [{...config, [field]: value}] *)
Definition apply_edit (e : Edit) (c : Config) : Config :=
  let '(Build_Config pn th mi nl wc ge ws cs mp mw rp rc) := c in
  match e with
  | EditProjectName v =>
      Build_Config (Some v) th mi nl wc ge ws cs mp mw rp rc
  | EditTheme v =>
      Build_Config pn (Some v) mi nl wc ge ws cs mp mw rp rc
  | EditGenre v =>
      Build_Config pn th mi nl wc (Some v) ws cs mp mw rp rc
  | EditModelId v =>
      Build_Config pn th v nl wc ge ws cs mp mw rp rc
  | EditNovelLength v =>
      Build_Config pn th mi (Some v) wc ge ws cs mp mw rp rc
  | EditCustomWordCount parsed =>
      Build_Config pn th mi nl
        (if truthy_number parsed then Some parsed else None)
        ge ws cs mp mw rp rc
  | EditWritingSampleId v =>
      Build_Config pn th mi nl wc ge (or_undefined v) cs mp mw rp rc
  | EditCustomWritingSample v =>
      Build_Config pn th mi nl wc ge ws (Some v) mp mw rp rc
  | EditMaxPlanCritiqueIterations parsed =>
      Build_Config pn th mi nl wc ge ws cs parsed mw rp rc
  | EditMaxWriteCritiqueIterations parsed =>
      Build_Config pn th mi nl wc ge ws cs mp parsed rp rc
  | EditRequirePlanApproval checked =>
      Build_Config pn th mi nl wc ge ws cs mp mw checked rc
  | EditRequireChunkApproval checked =>
      Build_Config pn th mi nl wc ge ws cs mp mw rp checked
  end.

(** [handleChange(field, value)]: the field is set, and if an error is shown
    for it, that error is cleared. *)
Definition handleChange (e : Edit) (f : Form) : Form :=
  {| form_config := apply_edit e (form_config f);
     form_errors :=
       if error_shown (form_errors f) (field_of e)
       then <[field_of e := None]> (form_errors f)
       else form_errors f |}.

(** [handleSubmit] on the form: [validate] replaces the error object. *)
Definition submit (f : Form) : Form * list Callback :=
  let '(st, calls) :=
    handleSubmit {| config := form_config f; errors := ∅ |} in
  ({| form_config := config st; form_errors := Some <$> errors st |}, calls).

End ConfigPanel.

(** ** Home and QualityControlSettings (pages/Home.jsx,
       components/QualityControlSettings.jsx) *)

Module Home.

Record StyleCard : Type := {
  name : jsstring;
  sample : option jsstring
}.

Record State : Type := {
  premise : jsstring;
  title : jsstring;
  genre : jsstring;
  length : jsstring;
  styleCards : list StyleCard;
  requirePlanApproval : bool;
  requireChunkApproval : bool;
  qualityConfig : obj
}.

Definition initialQualityConfig : obj :=
  <["max_plan_critique_iterations" := VNum (Fin 2)]>
  (<["max_write_critique_iterations" := VNum (Fin 2)]> ∅).

Definition initialState : State :=
  {| premise := str "";
     title := str "";
     genre := str "";
     length := str "ai_decide";
     styleCards := [ {| name := str ""; sample := Some (str "") |};
                     {| name := str ""; sample := Some (str "") |};
                     {| name := str ""; sample := Some (str "") |} ];
     requirePlanApproval := true;
     requireChunkApproval := false;
     qualityConfig := initialQualityConfig |}.

(** A filled-in form: every optional input has been given. *)
Definition filledState : State :=
  {| premise := str "A detective in Victorian London";
     title := str "Fog";
     genre := str "Mystery";
     length := str "novel";
     styleCards := [ {| name := str ""; sample := Some (str "") |};
                     {| name := str "Doyle";
                        sample := Some (str "To Sherlock Holmes she is always the woman.") |};
                     {| name := str ""; sample := Some (str "") |} ];
     requirePlanApproval := true;
     requireChunkApproval := true;
     qualityConfig := initialQualityConfig |}.

(** QualityControlSettings' [handleChange(field, value)]:
    [onChange({...config, [field]: value})]. *)
Definition handleChange (config : obj) (field : string) (v : value) : obj :=
  <[field := v]> config.

(** The quality settings the page can hold: the initial object, edited by
    the two number inputs, each of which stores [parseInt(e.target.value)]. *)
Inductive quality_reachable : obj -> Prop :=
  | quality_initial : quality_reachable initialQualityConfig
  | quality_plan q n :
      quality_reachable q ->
      quality_reachable
        (handleChange q "max_plan_critique_iterations" (VNum n))
  | quality_write q n :
      quality_reachable q ->
      quality_reachable
        (handleChange q "max_write_critique_iterations" (VNum n)).

(** [s || undefined] as a property value. *)
Definition str_or_undefined (s : jsstring) : value :=
  match or_undefined s with
  | Some t => VStr t
  | None => VUndefined
  end.

(** [card.sample?.trim()], as a condition. *)
Definition has_sample (card : StyleCard) : bool :=
  match sample card with
  | Some s => truthy_string (trim s)
  | None => false
  end.

(** The [config] object literal of [handleCreateProject]; the spread of
    [qualityConfig] comes last and so wins over the named properties. *)
Definition config_of (st : State) : obj :=
  let selectedStyle := find has_sample (styleCards st) in
  qualityConfig st ∪
  (<["project_name" := str_or_undefined (trim (title st))]>
  (<["theme" := VStr (trim (premise st))]>
  (<["novel_length" :=
       if bool_decide (length st = str "ai_decide") then VUndefined
       else VStr (length st)]>
  (<["genre" := str_or_undefined (trim (genre st))]>
  (<["custom_writing_sample" :=
       match selectedStyle with
       | Some card =>
           match sample card with
           | Some s => str_or_undefined s
           | None => VUndefined
           end
       | None => VUndefined
       end]>
  (<["require_plan_approval" := VBool (requirePlanApproval st)]>
  (<["require_chunk_approval" := VBool (requireChunkApproval st)]>
   ∅))))))).

(** What [handleCreateProject] does: either it reports the missing premise,
    or it posts the JSON body of [config]. *)
Inductive Outcome : Type :=
  | setError (msg : jsstring)
  | createProject (body : obj).

Definition handleCreateProject (st : State) : Outcome :=
  if negb (truthy_string (trim (premise st)))
  then setError (str "Please enter a premise for your novel")
  else createProject (JSON_stringify (config_of st)).

(** [loading || !premise.trim()], the [disabled] attribute of the button. *)
Definition createDisabled (loading : bool) (st : State) : bool :=
  loading || negb (truthy_string (trim (premise st))).

(** The "Kimi's Choice" hints under the title and genre inputs: [!title],
    [!genre]. *)
Definition titleHint (st : State) : bool := negb (truthy_string (title st)).
Definition genreHint (st : State) : bool := negb (truthy_string (genre st)).

(** The response of [POST /config], as far as the page reads it. *)
Record Created : Type := { project_id : option jsstring }.

(** [handleCreateProject] as a whole: what it does, in order, given how the
    request comes back. *)
Inductive Effect : Type :=
  | SetError (msg : jsstring)
  | SetLoading (b : bool)
  | Fetch (r : Api.Request)
  | Log (l : Api.Log)
  | Navigate (path : jsstring).

Definition createFlow (base : jsstring) (st : State)
    (fetched : Api.Fetched Created) : list Effect :=
  if negb (truthy_string (trim (premise st)))
  then [SetError (str "Please enter a premise for your novel")]
  else
    [SetLoading true; Fetch (Api.createProject base (config_of st))]
    ++ (match Api.apiFetch (str "/config") fetched with
        | (Api.resolved result, logs) =>
            List.map Log logs
            ++ [Navigate (str "/workspace/" ++ template_of (project_id result))]
        | (Api.rejected message, logs) =>
            List.map Log logs ++ [SetError message]
        end)
    ++ [SetLoading false].

End Home.

(** ** StreamingOutput and FileViewer (components/StreamingOutput.jsx,
       components/FileViewer.jsx) *)

Module StreamingOutput.

(** [content.split(/\s+/)]: the pieces between the maximal runs of white
    space, empty pieces at the ends included.  [cur] is the piece being
    read, [gap] tells that the previous code unit was white space. *)
Fixpoint split_from (cur : jsstring) (gap : bool) (s : jsstring)
    : list jsstring :=
  match s with
  | [] => [cur]
  | c :: s' =>
      if isWhiteSpace c
      then if gap then split_from cur true s'
           else cur :: split_from [] true s'
      else split_from (cur ++ [c]) false s'
  end.

Definition split_whitespace (s : jsstring) : list jsstring :=
  split_from [] false s.

(** [content.split(/\s+/).filter(Boolean)] and its length, the word count of
    the footer. *)
Definition words (content : jsstring) : list jsstring :=
  List.filter truthy_string (split_whitespace content).

Definition wordCount (content : jsstring) : Z :=
  Z.of_nat (length (words content)).

(** The maximal runs of code units that are not white space, in order, said
    without reference to [split]: blank content has none; otherwise the
    content is white space, then a run that is not empty and free of white
    space, then a rest that is empty or starts with white space, and the
    runs are that run and the runs of the rest. *)
Inductive runs : jsstring -> list jsstring -> Prop :=
  | runs_blank s :
      forallb isWhiteSpace s = true -> runs s []
  | runs_word pre w rest l :
      forallb isWhiteSpace pre = true ->
      w <> [] ->
      forallb (fun c => negb (isWhiteSpace c)) w = true ->
      (forall c, head rest = Some c -> isWhiteSpace c = true) ->
      runs rest l ->
      runs (pre ++ w ++ rest) (w :: l).

End StreamingOutput.

Module FileViewer.

(** The icons, as the strings of the source. *)
Definition icon_book : jsstring := [55357; 56534]%N.
Definition icon_clipboard : jsstring := [55357; 56523]%N.
Definition icon_memo : jsstring := [55357; 56541]%N.
Definition icon_person : jsstring := [55357; 56420]%N.
Definition icon_construction : jsstring := [55356; 57303; 65039]%N.
Definition icon_page : jsstring := [55357; 56516]%N.

Definition getFileIcon (filename : jsstring) : jsstring :=
  if includes filename (str "chunk") then icon_book
  else if includes filename (str "summary") then icon_clipboard
  else if includes filename (str "outline") then icon_memo
  else if includes filename (str "character")
          || includes filename (str "dramatis") then icon_person
  else if includes filename (str "structure") then icon_construction
  else icon_page.

Section Viewer.

Variable toLowerCase : jsstring -> jsstring.

(** [files.filter((file) =>
       file.toLowerCase().includes(searchQuery.toLowerCase()))] *)
Definition filteredFiles (files : list jsstring) (searchQuery : jsstring)
    : list jsstring :=
  List.filter
    (fun file => includes (toLowerCase file) (toLowerCase searchQuery))
    files.

(** The footer of the list:
    [`${n} ${n === 1 ? 'file' : 'files'}`] followed, when a query is typed,
    by [` (filtered from ${files.length})`]. *)
Definition fileCount (files : list jsstring) (searchQuery : jsstring)
    : jsstring :=
  let n := N.of_nat (length (filteredFiles files searchQuery)) in
  decimal n ++ str " " ++ (if (n =? 1)%N then str "file" else str "files")
  ++ (if truthy_string searchQuery
      then str " (filtered from " ++ decimal (N.of_nat (length files))
           ++ str ")"
      else []).

End Viewer.

(** [handleDownload] does nothing unless both a file is selected and its
    content is there. *)
Definition handleDownload (fileContent selectedFile : option jsstring)
    : option (jsstring * jsstring) :=
  match fileContent, selectedFile with
  | Some content, Some file =>
      if truthy_string content && truthy_string file
      then Some (file, content) else None
  | _, _ => None
  end.

End FileViewer.

(** What [JSON.stringify] makes of a number: one that is not finite is
    [null]. *)
Definition json_number (n : number) : value :=
  match n with
  | Fin q => VNum (Fin q)
  | _ => VNull
  end.

(** Every one of the twelve properties of the ConfigPanel form's config,
    with the value JSON gives it: a text or word count that is not set is
    [null], and so is a number that is not finite. *)
Definition whole_configuration (c : ConfigPanel.Config) (body : obj) : Prop :=
  body !! "project_name"
  = Some (ConfigPanel.opt_value VStr (ConfigPanel.project_name c))
  /\ body !! "theme" = Some (ConfigPanel.opt_value VStr (ConfigPanel.theme c))
  /\ body !! "model_id" = Some (VStr (ConfigPanel.model_id c))
  /\ body !! "novel_length"
     = Some (ConfigPanel.opt_value VStr (ConfigPanel.novel_length c))
  /\ body !! "custom_word_count"
     = Some (ConfigPanel.opt_value json_number (ConfigPanel.custom_word_count c))
  /\ body !! "genre" = Some (ConfigPanel.opt_value VStr (ConfigPanel.genre c))
  /\ body !! "writing_sample_id"
     = Some (ConfigPanel.opt_value VStr (ConfigPanel.writing_sample_id c))
  /\ body !! "custom_writing_sample"
     = Some (ConfigPanel.opt_value VStr (ConfigPanel.custom_writing_sample c))
  /\ body !! "max_plan_critique_iterations"
     = Some (json_number (ConfigPanel.max_plan_critique_iterations c))
  /\ body !! "max_write_critique_iterations"
     = Some (json_number (ConfigPanel.max_write_critique_iterations c))
  /\ body !! "require_plan_approval"
     = Some (VBool (ConfigPanel.require_plan_approval c))
  /\ body !! "require_chunk_approval"
     = Some (VBool (ConfigPanel.require_chunk_approval c)).

(** The configuration the data model assigns to a project, as properties of
    a creation request: theme, genre, a target length (preset or word
    count), the selected model, writing-sample text, both critique caps and
    both approval flags. *)
Definition full_configuration (body : obj) : Prop :=
  is_Some (body !! "theme")
  /\ is_Some (body !! "genre")
  /\ (is_Some (body !! "novel_length") \/ is_Some (body !! "custom_word_count"))
  /\ is_Some (body !! "model_id")
  /\ is_Some (body !! "custom_writing_sample")
  /\ is_Some (body !! "max_plan_critique_iterations")
  /\ is_Some (body !! "max_write_critique_iterations")
  /\ is_Some (body !! "require_plan_approval")
  /\ is_Some (body !! "require_chunk_approval").

(** ** The orchestration core

    The front end only talks to the orchestration core through the REST
    client; the core's own code (the Python agent loop) lies outside the
    front-end tree.  The three components below are written from its
    interface description. *)

Module CritiqueLoopController.

(** Modelled from the spec: the two ways a critique loop resolves; the loop's
    source is not available. *)
Inductive Outcome : Type := approved | auto_approved_at_cap.

Section Loop.

Variables Artifact Feedback : Type.

(** A critic's verdict; a malformed or missing one is its own case. *)
Inductive Verdict : Type :=
  | Approve
  | Revise (feedback : Feedback)
  | Malformed.

(** The producer produces or revises the artifact from the feedback it is
    given, if any; the critic judges the artifact of a given round. *)
Variable producerAgent : option Feedback -> Artifact -> Artifact.
Variable criticAgent : nat -> Artifact -> Verdict.
Variable emptyFeedback : Feedback.

(** The result of a loop: the artifact, how the loop resolved, the
    iteration count, and the critic's verdicts in the order they were
    given, one per producer/critic round. *)
Record LoopResult : Type := {
  artifact : Artifact;
  outcome : Outcome;
  rounds : nat;
  verdicts : list Verdict
}.

(** Modelled from the spec: CritiqueLoopController.runLoop, whose source is
    not available.  Invoke the producer, invoke the critic; on approval
    return at once; otherwise increment the iteration count; when the count
    equals [maxIterations] the artifact is auto-approved, else the feedback
    goes back to the producer and the round repeats.  A malformed verdict
    counts as a revision request with empty feedback.  [fuel] bounds the
    number of rounds the model may unfold. *)
Fixpoint loop (fuel : nat) (maxIterations iteration : nat)
    (log : list Verdict) (feedback : option Feedback) (a : Artifact)
    : option LoopResult :=
  match fuel with
  | O => None
  | S fuel' =>
      let a' := producerAgent feedback a in
      let verdict := criticAgent iteration a' in
      let log' := log ++ [verdict] in
      let revise fb :=
        let iteration' := S iteration in
        if (iteration' =? maxIterations)%nat
        then Some {| artifact := a'; outcome := auto_approved_at_cap;
                     rounds := iteration'; verdicts := log' |}
        else loop fuel' maxIterations iteration' log' (Some fb) a' in
      match verdict with
      | Approve =>
          Some {| artifact := a'; outcome := approved;
                  rounds := S iteration; verdicts := log' |}
      | Revise fb => revise fb
      | Malformed => revise emptyFeedback
      end
  end.

Definition runLoop (fuel : nat) (a : Artifact) (maxIterations : nat)
    : option LoopResult :=
  loop fuel maxIterations 0 [] None a.

Definition never_approves : Prop :=
  forall i a, criticAgent i a <> Approve.

(** Modelled from the spec: the feedback a verdict that is not an approval
    hands to the producer; a malformed verdict hands it empty feedback. *)
Definition feedback_of (v : Verdict) : Feedback :=
  match v with
  | Revise feedback => feedback
  | _ => emptyFeedback
  end.

(** Modelled from the spec: the rounds themselves, apart from any loop that
    runs them.  Counted from iteration [i] with feedback [fb] pending on
    artifact [a]: the first round has the producer work on [a] with [fb];
    each later round has it revise the artifact of the round before with
    the feedback of the critic's verdict on that artifact.  The critic of a
    round judges the artifact of that round. *)
Fixpoint artifact_from (i : nat) (fb : option Feedback) (a : Artifact)
    (k : nat) : Artifact :=
  match k with
  | O => producerAgent fb a
  | S k' =>
      let a' := artifact_from i fb a k' in
      producerAgent (Some (feedback_of (criticAgent (i + k') a'))) a'
  end.

(** Modelled from the spec: the critic's verdict of round [k], on the
    artifact of that round. *)
Definition verdict_from (i : nat) (fb : option Feedback) (a : Artifact)
    (k : nat) : Verdict :=
  criticAgent (i + k) (artifact_from i fb a k).

(** Modelled from the spec: round [k] (from 0) of a loop started on [a],
    with no feedback pending. *)
Definition round_artifact (a : Artifact) (k : nat) : Artifact :=
  artifact_from 0 None a k.

(** Modelled from the spec: the critic's verdict of round [k] of a loop
    started on [a]. *)
Definition round_verdict (a : Artifact) (k : nat) : Verdict :=
  verdict_from 0 None a k.

End Loop.

Arguments Approve {Feedback}.
Arguments Revise {Feedback} _.
Arguments Malformed {Feedback}.
Arguments artifact {Artifact Feedback} _.
Arguments outcome {Artifact Feedback} _.
Arguments rounds {Artifact Feedback} _.
Arguments verdicts {Artifact Feedback} _.

End CritiqueLoopController.

Module TokenBudgetManager.

(** Modelled from the spec: the TokenBudget record of the data model, whose
    source is not available: the estimated token count, the hard limit and
    the compression trigger as a fraction of the limit. *)
Record TokenBudget : Type := {
  usage : Z;
  limit : Z;
  fraction : Q
}.

Definition threshold (b : TokenBudget) : Q :=
  (fraction b * inject_Z (limit b))%Q.

(** Modelled from the spec: TokenBudgetManager.recordTurn. *)
Definition recordTurn (tokensUsed : Z) (b : TokenBudget) : TokenBudget :=
  {| usage := usage b + tokensUsed; limit := limit b;
     fraction := fraction b |}.

(** Modelled from the spec: TokenBudgetManager.shouldCompress, true once
    usage has reached the trigger threshold. *)
Definition shouldCompress (b : TokenBudget) : bool :=
  Qle_bool (threshold b) (inject_Z (usage b)).

(** Modelled from the spec: the usage percentage the progress endpoint
    reports to the dashboard, count over limit times one hundred. *)
Definition tokenPercentage (b : TokenBudget) : number :=
  Fin (inject_Z (usage b) * 100 / inject_Z (limit b))%Q.

(** The configuration of the README: compression at 90% of the limit. *)
Definition budget (usage limit : Z) : TokenBudget :=
  {| usage := usage; limit := limit; fraction := (90 # 100)%Q |}.

End TokenBudgetManager.

Module PhaseStateMachine.

(** Modelled from the spec: the Phase of the data model, whose source is not
    available. *)
Inductive Phase : Type :=
  | PLANNING
  | PLAN_CRITIQUE
  | WRITING
  | WRITE_CRITIQUE
  | COMPLETE.

(** The position of a phase in the workflow. *)
Definition rank (p : Phase) : nat :=
  match p with
  | PLANNING => 0
  | PLAN_CRITIQUE => 1
  | WRITING => 2
  | WRITE_CRITIQUE => 3
  | COMPLETE => 4
  end.

(** Modelled from the spec: the ApprovalRequest of the data model (kind and
    artifact reference), whose source is not available. *)
Inductive ApprovalKind : Type := plan | chunk.

Record ApprovalRequest : Type := {
  kind : ApprovalKind;
  artifactRef : nat
}.

(** Modelled from the spec: what the pipeline is doing: running, suspended
    on an approval request, paused by the operator, or failed. *)
Inductive Status : Type :=
  | Running
  | AwaitingApproval (request : ApprovalRequest)
  | Paused
  | Failed (reason : jsstring).

(** Modelled from the spec: the part of the project configuration the
    machine consults: the two checkpoint flags and the number of chunks. *)
Record Settings : Type := {
  require_plan_approval : bool;
  require_chunk_approval : bool;
  total_chunks : nat
}.

(** Modelled from the spec: the resumable pipeline state (phase, chunk
    index, iteration counter of the running critique loop, the feedback
    handed to its producer), whose source is not available. *)
Record PipelineState : Type := {
  phase : Phase;
  chunk_index : nat;
  iteration : nat;
  feedback : option jsstring;
  status : Status
}.

Definition initial : PipelineState :=
  {| phase := PLANNING; chunk_index := 1; iteration := 0;
     feedback := None; status := Running |}.

(** Modelled from the spec: leaving a critique phase on approval.  The plan
    loop leads to the first chunk; a chunk loop leads to the next chunk, or
    to COMPLETE after the last one. *)
Definition advance (cfg : Settings) (st : PipelineState) : PipelineState :=
  match phase st with
  | PLAN_CRITIQUE =>
      {| phase := WRITING; chunk_index := chunk_index st; iteration := 0;
         feedback := None; status := Running |}
  | WRITE_CRITIQUE =>
      if (total_chunks cfg <=? chunk_index st)%nat
      then {| phase := COMPLETE; chunk_index := chunk_index st;
              iteration := 0; feedback := None; status := Running |}
      else {| phase := WRITING; chunk_index := S (chunk_index st);
              iteration := 0; feedback := None; status := Running |}
  | _ => st
  end.

(** Modelled from the spec: the producer of a phase has finished
    (PLANNING -> PLAN_CRITIQUE, WRITING -> WRITE_CRITIQUE). *)
Definition produced (st : PipelineState) : PipelineState :=
  match status st, phase st with
  | Running, PLANNING =>
      {| phase := PLAN_CRITIQUE; chunk_index := chunk_index st;
         iteration := 0; feedback := None; status := Running |}
  | Running, WRITING =>
      {| phase := WRITE_CRITIQUE; chunk_index := chunk_index st;
         iteration := 0; feedback := None; status := Running |}
  | _, _ => st
  end.

(** Modelled from the spec: the critique loop of the current phase has
    resolved as approved.  With the checkpoint enabled the pipeline suspends
    on an approval request; without it the phase advances at once. *)
Definition loopResolved (cfg : Settings) (st : PipelineState)
    : PipelineState :=
  match status st, phase st with
  | Running, PLAN_CRITIQUE =>
      if require_plan_approval cfg
      then {| phase := phase st; chunk_index := chunk_index st;
              iteration := iteration st; feedback := feedback st;
              status := AwaitingApproval
                          {| kind := plan; artifactRef := 0 |} |}
      else advance cfg st
  | Running, WRITE_CRITIQUE =>
      if require_chunk_approval cfg
      then {| phase := phase st; chunk_index := chunk_index st;
              iteration := iteration st; feedback := feedback st;
              status := AwaitingApproval
                          {| kind := chunk; artifactRef := chunk_index st |} |}
      else advance cfg st
  | _, _ => st
  end.

(** Modelled from the spec: a decision arrives for the outstanding request.
    Approval advances.  Rejection re-enters the same critique loop: the phase
    is kept, the notes become the critique feedback and the iteration is
    incremented.  A decision with no request outstanding is discarded. *)
Definition submitDecision (cfg : Settings) (d : ApprovalModal.Decision)
    (st : PipelineState) : PipelineState :=
  match status st with
  | AwaitingApproval _ =>
      if ApprovalModal.approved d
      then advance cfg
             {| phase := phase st; chunk_index := chunk_index st;
                iteration := iteration st; feedback := feedback st;
                status := Running |}
      else {| phase := phase st; chunk_index := chunk_index st;
              iteration := S (iteration st);
              feedback := ApprovalModal.notes d;
              status := Running |}
  | _ => st
  end.

(** The events that drive the machine, and the states it can reach. *)
Inductive Event : Type :=
  | Produced
  | LoopResolved
  | Decided (d : ApprovalModal.Decision).

Definition step (cfg : Settings) (e : Event) (st : PipelineState)
    : PipelineState :=
  match e with
  | Produced => produced st
  | LoopResolved => loopResolved cfg st
  | Decided d => submitDecision cfg d st
  end.

Definition run (cfg : Settings) (es : list Event) : PipelineState :=
  fold_left (fun st e => step cfg e st) es initial.

Definition is_critique (p : Phase) : bool :=
  match p with
  | PLAN_CRITIQUE | WRITE_CRITIQUE => true
  | _ => false
  end.

(** The pipeline only ever waits for a decision inside a critique phase. *)
Definition awaits_in_critique (st : PipelineState) : Prop :=
  match status st with
  | AwaitingApproval _ => is_critique (phase st) = true
  | _ => True
  end.

End PhaseStateMachine.

(** The reading of the usage display under which it follows the compression
    trigger: at a given usage and limit, with compression at 90% of the
    limit, the manager asks for compression exactly from the threshold on,
    and the bar is red exactly from the threshold on. *)
Definition usage_flagged_at_trigger (usage limit : Z) : Prop :=
  let b := TokenBudgetManager.budget usage limit in
  (TokenBudgetManager.shouldCompress b = true
   <-> (TokenBudgetManager.threshold b <= inject_Z usage)%Q)
  /\ (ProgressDashboard.tokenBarColor (TokenBudgetManager.tokenPercentage b)
      = ProgressDashboard.bg_red_600
      <-> (TokenBudgetManager.threshold b <= inject_Z usage)%Q).

(** * Properties *)

(** ** Strings and numbers *)

Lemma trimStart_split (s : jsstring) :
  exists pre, s = pre ++ trimStart s /\ forallb isWhiteSpace pre = true.
Proof.
  induction s as [|c s [pre [Hs Hpre]]]; simpl.
  - exists []. done.
  - destruct (isWhiteSpace c) eqn:Hc.
    + exists (c :: pre). simpl. rewrite Hc, Hpre. split; [congruence | done].
    + exists []. done.
Qed.

Lemma trimStart_head (s : jsstring) (c : N) :
  head (trimStart s) = Some c -> isWhiteSpace c = false.
Proof.
  induction s as [|a s IH]; simpl; [done|].
  destruct (isWhiteSpace a) eqn:Ha; [exact IH|].
  simpl. intros [= <-]. exact Ha.
Qed.

Lemma trimStart_nil_iff (s : jsstring) :
  trimStart s = [] <-> forallb isWhiteSpace s = true.
Proof.
  induction s as [|a s IH]; simpl; [done|].
  destruct (isWhiteSpace a); simpl; [exact IH|].
  split; discriminate.
Qed.

Lemma trimStart_keeps_last (s : jsstring) (c : N) :
  last (trimStart s) = Some c -> last s = Some c.
Proof.
  destruct (trimStart_split s) as [pre [Hs _]].
  intros H. rewrite Hs. rewrite last_app, H. done.
Qed.

Lemma forallb_rev {A : Type} (p : A -> bool) (l : list A) :
  forallb p (rev l) = forallb p l.
Proof.
  induction l as [|a l IH]; simpl; [done|].
  rewrite forallb_app, IH. simpl. rewrite andb_true_r. apply andb_comm.
Qed.

Lemma head_rev {A : Type} (l : list A) : head (rev l) = last l.
Proof. rewrite rev_alt. apply head_reverse. Qed.

Lemma last_rev {A : Type} (l : list A) : last (rev l) = head l.
Proof. rewrite rev_alt. apply last_reverse. Qed.

Lemma trimEnd_split (s : jsstring) :
  exists post, s = trimEnd s ++ post /\ forallb isWhiteSpace post = true.
Proof.
  unfold trimEnd.
  destruct (trimStart_split (rev s)) as [pre [Hs Hpre]].
  exists (rev pre). split.
  - rewrite <- rev_app_distr, <- Hs, rev_involutive. done.
  - rewrite forallb_rev. exact Hpre.
Qed.

Lemma trimEnd_last (s : jsstring) (c : N) :
  last (trimEnd s) = Some c -> isWhiteSpace c = false.
Proof.
  unfold trimEnd. rewrite last_rev. apply trimStart_head.
Qed.

Lemma trimEnd_keeps_head (s : jsstring) (c : N) :
  head (trimEnd s) = Some c -> head s = Some c.
Proof.
  unfold trimEnd. rewrite head_rev. intros H.
  apply trimStart_keeps_last in H. rewrite last_rev in H. exact H.
Qed.

Lemma trimEnd_nil_iff (s : jsstring) :
  trimEnd s = [] <-> forallb isWhiteSpace s = true.
Proof.
  unfold trimEnd. rewrite <- (forallb_rev _ s), <- trimStart_nil_iff.
  split; intros H.
  - apply (f_equal (@rev N)) in H. rewrite rev_involutive in H. exact H.
  - rewrite H. done.
Qed.

(** [trim] computes the trimmed text. *)
Lemma trim_is_trim_of (s : jsstring) : is_trim_of s (trim s).
Proof.
  unfold trim.
  destruct (trimStart_split s) as [pre [Hs Hpre]].
  destruct (trimEnd_split (trimStart s)) as [post [Ht Hpost]].
  exists pre, post. repeat split; try done.
  - rewrite <- Ht. exact Hs.
  - intros c Hc. apply trimEnd_keeps_head in Hc.
    by apply trimStart_head in Hc.
  - apply trimEnd_last.
Qed.

(** The trimmed text is empty exactly for blank input: nothing but white
    space, possibly nothing at all. *)
Lemma trim_nil_iff (s : jsstring) :
  trim s = [] <-> forallb isWhiteSpace s = true.
Proof.
  unfold trim. rewrite trimEnd_nil_iff.
  split; intros H.
  - apply trimStart_nil_iff.
    destruct (trimStart s) as [|c r] eqn:E; [done|].
    pose proof (trimStart_head s c) as Hc. rewrite E in Hc.
    simpl in H. rewrite (Hc eq_refl) in H. discriminate.
  - apply trimStart_nil_iff in H. rewrite H. done.
Qed.

Lemma truthy_trim (s : jsstring) :
  truthy_string (trim s) = negb (forallb isWhiteSpace s).
Proof.
  destruct (forallb isWhiteSpace s) eqn:E.
  - apply trim_nil_iff in E. rewrite E. done.
  - destruct (trim s) eqn:T; [|done].
    apply trim_nil_iff in T. congruence.
Qed.

Lemma or_undefined_trim (s : jsstring) :
  or_undefined (trim s)
  = if forallb isWhiteSpace s then None else Some (trim s).
Proof.
  unfold or_undefined. rewrite truthy_trim.
  by destruct (forallb isWhiteSpace s).
Qed.

(** ** ApprovalModal *)

(** C4. Whatever the notes field holds, the Approve button submits
    [{approved: true, notes}] and the Reject button [{approved: false,
    notes}], with the same [notes] in both: absent when the field is blank
    (empty or white space only), and otherwise the non-empty trimmed text of
    the field.  Both handlers then clear the field. *)
Theorem decision_shape (notes : jsstring) :
  exists n : option jsstring,
    ApprovalModal.click ApprovalModal.ApproveButton notes
    = (ApprovalModal.onApprove
         {| ApprovalModal.approved := true; ApprovalModal.notes := n |},
       [])
    /\ ApprovalModal.click ApprovalModal.RejectButton notes
       = (ApprovalModal.onReject
            {| ApprovalModal.approved := false; ApprovalModal.notes := n |},
          [])
    /\ match n with
       | Some t => t <> [] /\ is_trim_of notes t
                   /\ forallb isWhiteSpace notes = false
       | None => forallb isWhiteSpace notes = true
       end.
Proof.
  exists (or_undefined (trim notes)).
  split; [reflexivity|]. split; [reflexivity|].
  rewrite or_undefined_trim.
  destruct (forallb isWhiteSpace notes) eqn:E; [done|].
  split; [|split; [apply trim_is_trim_of | done]].
  intros H. apply trim_nil_iff in H. congruence.
Qed.

Lemma uint_units_no_space (u : Decimal.uint) :
  Forall (fun c => (c =? 32)%N = false) (uint_units u).
Proof. induction u; simpl; constructor; done. Qed.

Lemma artifact_of_app (a b : jsstring) :
  Forall (fun c => (c =? 32)%N = false) a ->
  ApprovalModal.artifact_of (a ++ b) = a ++ ApprovalModal.artifact_of b.
Proof.
  induction 1 as [|c a Hc _ IH]; simpl; [done|].
  rewrite Hc, IH. done.
Qed.

Lemma chunk_label_number (d : ApprovalModal.ApprovalData) (n : SafeNat) :
  ApprovalModal.chunk_number d = Some n -> safe_value n <> 0%N ->
  ApprovalModal.chunk_label (Some d) = decimal (safe_value n).
Proof.
  intros Hd Hn. unfold ApprovalModal.chunk_label. rewrite Hd.
  destruct (N.eqb_spec (safe_value n) 0); [done|done].
Qed.

(** Without a chunk number (no payload, no [chunk_number], or 0) the chunk
    entry falls back to a question mark. *)
Lemma chunk_label_placeholder (approvalData : option ApprovalModal.ApprovalData) :
  approvalData = None
  \/ (exists d, approvalData = Some d
                /\ (ApprovalModal.chunk_number d = None
                    \/ exists n, ApprovalModal.chunk_number d = Some n
                                 /\ safe_value n = 0%N)) ->
  ApprovalModal.chunk_label approvalData = str "?".
Proof.
  intros [-> | (d & -> & [H | (n & H & Hn)])]; unfold ApprovalModal.chunk_label;
    [done | by rewrite H | by rewrite H, Hn].
Qed.

Lemma chunk_files (approvalData : option ApprovalModal.ApprovalData)
    (label : jsstring) :
  ApprovalModal.chunk_label approvalData = label ->
  Forall (fun c => (c =? 32)%N = false) label ->
  ApprovalModal.files
    (ApprovalModal.getApprovalInfo (VStr (str "chunk")) approvalData)
  = [ str "chunk_" ++ label ++ str ".txt - Chunk content" ]
  /\ List.map ApprovalModal.artifact_of
       (ApprovalModal.files
          (ApprovalModal.getApprovalInfo (VStr (str "chunk")) approvalData))
     = [ str "chunk_" ++ label ++ str ".txt" ].
Proof.
  intros Hl Hs.
  assert (Hf : ApprovalModal.files
                 (ApprovalModal.getApprovalInfo (VStr (str "chunk"))
                    approvalData)
               = [ str "chunk_" ++ label ++ str ".txt - Chunk content" ]).
  { change (ApprovalModal.files
              (ApprovalModal.getApprovalInfo (VStr (str "chunk"))
                 approvalData))
      with [ str "chunk_" ++ ApprovalModal.chunk_label approvalData
               ++ str ".txt - Chunk content" ].
    rewrite Hl. done. }
  split; [exact Hf|].
  rewrite Hf. cbn [List.map]. f_equal.
  rewrite (artifact_of_app (str "chunk_")) by (repeat constructor).
  rewrite (artifact_of_app label) by exact Hs.
  reflexivity.
Qed.

(** C7 (as amended). A plan approval lists exactly the four planning
    artifacts summary.txt, dramatis_personae.txt, story_structure.txt and
    plot_outline.txt, whatever payload comes with it.  A chunk approval
    lists exactly one file: chunk_N.txt when its payload carries a chunk
    number N that is a whole number from 1 up in the safe range, and the
    placeholder chunk_?.txt when the payload, or its chunk number, is
    missing or the number is 0. *)
Theorem approval_files (approvalData : option ApprovalModal.ApprovalData) :
  ApprovalModal.files
    (ApprovalModal.getApprovalInfo (VStr (str "plan")) approvalData)
  = [ str "summary.txt - Story summary";
      str "dramatis_personae.txt - Character descriptions";
      str "story_structure.txt - Three-act structure";
      str "plot_outline.txt - Chunk-by-chunk outline" ]
  /\ List.map ApprovalModal.artifact_of
       (ApprovalModal.files
          (ApprovalModal.getApprovalInfo (VStr (str "plan")) approvalData))
     = [ str "summary.txt"; str "dramatis_personae.txt";
         str "story_structure.txt"; str "plot_outline.txt" ]
  /\ (forall d n,
        approvalData = Some d ->
        ApprovalModal.chunk_number d = Some n ->
        (1 <= safe_value n)%N ->
        ApprovalModal.files
          (ApprovalModal.getApprovalInfo (VStr (str "chunk")) approvalData)
        = [ str "chunk_" ++ decimal (safe_value n)
              ++ str ".txt - Chunk content" ]
        /\ List.map ApprovalModal.artifact_of
             (ApprovalModal.files
                (ApprovalModal.getApprovalInfo (VStr (str "chunk"))
                   approvalData))
           = [ str "chunk_" ++ decimal (safe_value n) ++ str ".txt" ])
  /\ (approvalData = None
      \/ (exists d, approvalData = Some d
                    /\ (ApprovalModal.chunk_number d = None
                        \/ exists n, ApprovalModal.chunk_number d = Some n
                                     /\ safe_value n = 0%N)) ->
      ApprovalModal.files
        (ApprovalModal.getApprovalInfo (VStr (str "chunk")) approvalData)
      = [ str "chunk_?.txt - Chunk content" ]
      /\ List.map ApprovalModal.artifact_of
           (ApprovalModal.files
              (ApprovalModal.getApprovalInfo (VStr (str "chunk"))
                 approvalData))
         = [ str "chunk_?.txt" ]).
Proof.
  split; [reflexivity|]. split; [reflexivity|]. split.
  - intros d n -> Hd Hn.
    apply chunk_files; [|apply uint_units_no_space].
    apply chunk_label_number; [done | lia].
  - intros H. apply chunk_label_placeholder in H.
    apply (chunk_files approvalData (str "?") H). repeat constructor.
Qed.

Lemma approval_files_witness :
  ApprovalModal.files
    (ApprovalModal.getApprovalInfo (VStr (str "chunk"))
       (Some {| ApprovalModal.chunk_number :=
                  Some {| safe_value := 3; safe_bound := eq_refl |} |}))
  = [ str "chunk_3.txt - Chunk content" ]
  /\ ApprovalModal.files
       (ApprovalModal.getApprovalInfo (VStr (str "chunk")) None)
     = [ str "chunk_?.txt - Chunk content" ].
Proof.
  split.
  - destruct (approval_files
                (Some {| ApprovalModal.chunk_number :=
                           Some {| safe_value := 3; safe_bound := eq_refl |} |}))
      as (_ & _ & H & _).
    destruct (H _ _ eq_refl eq_refl) as [H1 _]; [cbn; lia | exact H1].
  - destruct (approval_files None) as (_ & _ & _ & H).
    exact (proj1 (H (or_introl eq_refl))).
Defined.

Lemma uint_units_digits (u : Decimal.uint) :
  Forall (fun c => (48 <=? c)%N && (c <=? 57)%N = true) (uint_units u).
Proof. induction u; cbn [uint_units]; constructor; done. Qed.

(** C7, as stated, fails for a chunk approval that comes without a payload:
    the file it lists is chunk_?.txt, which is chunk_N.txt for no N. *)
Lemma chunk_request_without_number :
  ~ ApprovalModal.lists_chunk_file None.
Proof.
  intros [n H].
  change (List.map ApprovalModal.artifact_of
            (ApprovalModal.files
               (ApprovalModal.getApprovalInfo (VStr (str "chunk")) None)))
    with [ str "chunk_" ++ str "?" ++ str ".txt" ] in H.
  injection H as H.
  apply (app_inv_tail (str ".txt") [63%N] (decimal n)) in H.
  pose proof (uint_units_digits (N.to_uint n)) as D.
  fold (decimal n) in D. rewrite <- H in D.
  apply Forall_inv in D. done.
Qed.

(** ** ProgressDashboard *)

Lemma strict_eq_str_false (v : value) (s : jsstring) :
  v <> VStr s -> strict_eq_str v s = false.
Proof.
  destruct v as [| | b | n | t]; simpl; try done.
  intros H. apply bool_decide_eq_false. congruence.
Qed.

Lemma phase_index_outside (phase : value) :
  phase <> VStr (str "PLANNING") ->
  phase <> VStr (str "PLAN_CRITIQUE") ->
  phase <> VStr (str "WRITING") ->
  phase <> VStr (str "WRITE_CRITIQUE") ->
  ProgressDashboard.getCurrentPhaseIndex phase = -1.
Proof.
  intros H1 H2 H3 H4.
  unfold ProgressDashboard.getCurrentPhaseIndex, findIndex,
    ProgressDashboard.phases.
  cbn [findIndex_from ProgressDashboard.name].
  rewrite !strict_eq_str_false by assumption.
  reflexivity.
Qed.

(** C8. For a phase value that is none of the four displayed phases, the
    terminal phase COMPLETE included, [getCurrentPhaseIndex] is -1 and each
    of the four steps of the tracker is rendered neither active nor
    completed, in grey. *)
Theorem phase_tracker_outside (phase : value) :
  phase <> VStr (str "PLANNING") ->
  phase <> VStr (str "PLAN_CRITIQUE") ->
  phase <> VStr (str "WRITING") ->
  phase <> VStr (str "WRITE_CRITIQUE") ->
  ProgressDashboard.getCurrentPhaseIndex phase = -1
  /\ length (ProgressDashboard.renderPhaseSteps phase) = 4%nat
  /\ Forall ProgressDashboard.not_started
       (ProgressDashboard.renderPhaseSteps phase).
Proof.
  intros H1 H2 H3 H4.
  pose proof (phase_index_outside phase H1 H2 H3 H4) as Hi.
  split; [exact Hi|].
  unfold ProgressDashboard.renderPhaseSteps. rewrite Hi.
  split; [reflexivity|].
  repeat constructor.
Qed.

Lemma phase_tracker_outside_witness :
  ProgressDashboard.getCurrentPhaseIndex (VStr (str "COMPLETE")) = -1
  /\ length (ProgressDashboard.renderPhaseSteps (VStr (str "COMPLETE")))
     = 4%nat
  /\ Forall ProgressDashboard.not_started
       (ProgressDashboard.renderPhaseSteps (VStr (str "COMPLETE"))).
Proof.
  apply (phase_tracker_outside (VStr (str "COMPLETE"))); discriminate.
Defined.

Lemma Qltb_lt (p q : Q) : Qltb p q = true <-> (p < q)%Q.
Proof.
  unfold Qltb. rewrite negb_true_iff.
  destruct (Qle_bool q p) eqn:E.
  - apply Qle_bool_iff in E. split; [discriminate|].
    intros H. exfalso. exact (Qlt_not_le _ _ H E).
  - split; [|done]. intros _. apply Qnot_le_lt. intros H.
    apply Qle_bool_iff in H. congruence.
Qed.

Lemma Qltb_ge (p q : Q) : Qltb p q = false <-> (q <= p)%Q.
Proof.
  unfold Qltb. rewrite negb_false_iff. apply Qle_bool_iff.
Qed.

Lemma tokenBarWidth_at_most_100 (tokenPercentage : number) :
  gt (ProgressDashboard.tokenBarWidth tokenPercentage) (Fin 100) = false.
Proof.
  unfold ProgressDashboard.tokenBarWidth.
  destruct tokenPercentage as [| | q |]; try done.
  unfold Math_min, gt, lt. by destruct (Qltb 100 q) eqn:E.
Qed.

(** C10. The width of the context-usage bar is the smaller of
    [tokenPercentage] and 100, for every number: 100 when the percentage
    exceeds 100 and the percentage itself otherwise, so it is never above
    100; on finite percentages it is their minimum with 100. *)
Theorem token_bar_width (tokenPercentage : number) :
  ProgressDashboard.tokenBarWidth tokenPercentage
  = (if gt tokenPercentage (Fin 100) then Fin 100 else tokenPercentage)
  /\ gt (ProgressDashboard.tokenBarWidth tokenPercentage) (Fin 100) = false
  /\ match tokenPercentage with
     | Fin q =>
         exists w, ProgressDashboard.tokenBarWidth tokenPercentage = Fin w
                   /\ (w == Qmin q 100)%Q /\ (w <= 100)%Q
     | _ => True
     end.
Proof.
  unfold ProgressDashboard.tokenBarWidth.
  destruct tokenPercentage as [| | q |]; try (repeat split; done).
  unfold Math_min, gt, lt.
  destruct (Qltb 100 q) eqn:E.
  - repeat split; try done.
    apply Qltb_lt in E. exists 100%Q. split; [done|]. split; [|lra].
    symmetry. apply Q.min_r. lra.
  - repeat split; try done.
    apply Qltb_ge in E. exists q. split; [done|]. split; [|done].
    symmetry. apply Q.min_l. done.
Qed.

(** Whenever the bar is drawn, it is drawn with that colour and width. *)
Lemma tokenUsageBar_rendered (tokenLimit tokenPercentage : number)
    (bar : ProgressDashboard.BarColor * number) :
  ProgressDashboard.tokenUsageBar tokenLimit tokenPercentage = Some bar ->
  bar = (ProgressDashboard.tokenBarColor tokenPercentage,
         ProgressDashboard.tokenBarWidth tokenPercentage)
  /\ gt bar.2 (Fin 100) = false.
Proof.
  unfold ProgressDashboard.tokenUsageBar.
  destruct (gt tokenLimit (Fin 0)); [|done].
  intros [= <-]. split; [done|]. apply tokenBarWidth_at_most_100.
Qed.

(** ** ProjectBrowser *)

Lemma filterProjects_subset (toLowerCase : jsstring -> jsstring)
    (st : ProjectBrowser.State) (p : ProjectBrowser.Project) :
  In p (ProjectBrowser.filteredProjects
          (ProjectBrowser.filterProjects toLowerCase st)) ->
  In p (ProjectBrowser.projects st).
Proof.
  unfold ProjectBrowser.filterProjects. cbn [ProjectBrowser.filteredProjects].
  destruct (truthy_string _), (negb _); intros H;
    repeat (apply filter_In in H; destruct H as [H _]); exact H.
Qed.

(** C9. When [api.deleteProject] rejects, [handleDelete] leaves every cell
    of the page as it was: the project list, the displayed list and the
    open confirmation dialog.  When it resolves, the project list loses
    exactly the projects with that id, the dialog is closed, and the
    displayed list no longer shows the project. *)
Theorem delete_only_on_success (toLowerCase : jsstring -> jsstring)
    (projectId : jsstring) (st : ProjectBrowser.State) :
  (forall error,
     fst (ProjectBrowser.handleDelete toLowerCase projectId
            (ProjectBrowser.Rejected error) st) = st)
  /\ let st' := fst (ProjectBrowser.handleDelete toLowerCase projectId
                       ProjectBrowser.Resolved st) in
     ProjectBrowser.projects st'
     = List.filter
         (fun p => negb (bool_decide (ProjectBrowser.project_id p = projectId)))
         (ProjectBrowser.projects st)
     /\ ProjectBrowser.deleteConfirm st' = None
     /\ Forall (fun p => ProjectBrowser.project_id p <> projectId)
          (ProjectBrowser.filteredProjects st')
     /\ (forall p, In p (ProjectBrowser.projects st') <->
                   In p (ProjectBrowser.projects st)
                   /\ ProjectBrowser.project_id p <> projectId).
Proof.
  split; [reflexivity|].
  cbn zeta. cbn [ProjectBrowser.handleDelete fst].
  split; [reflexivity|]. split; [reflexivity|].
  assert (Hin : forall p,
    In p (List.filter
            (fun p => negb (bool_decide (ProjectBrowser.project_id p = projectId)))
            (ProjectBrowser.projects st))
    <-> In p (ProjectBrowser.projects st)
        /\ ProjectBrowser.project_id p <> projectId).
  { intros p. rewrite filter_In, negb_true_iff, bool_decide_eq_false. done. }
  split.
  - apply List.Forall_forall. intros p Hp.
    apply filterProjects_subset in Hp. cbn [ProjectBrowser.projects] in Hp.
    apply Hin in Hp. tauto.
  - exact Hin.
Qed.

(** ** Token budget and its display *)

Lemma shouldCompress_iff (b : TokenBudgetManager.TokenBudget) :
  TokenBudgetManager.shouldCompress b = true
  <-> (TokenBudgetManager.threshold b
       <= inject_Z (TokenBudgetManager.usage b))%Q.
Proof. apply Qle_bool_iff. Qed.

Lemma tokenBarColor_red (tokenPercentage : number) :
  ProgressDashboard.tokenBarColor tokenPercentage
  = ProgressDashboard.bg_red_600
  <-> gt tokenPercentage (Fin 90) = true.
Proof.
  unfold ProgressDashboard.tokenBarColor.
  destruct (gt tokenPercentage (Fin 90)); [done|].
  destruct (gt tokenPercentage (Fin 75)); split; discriminate.
Qed.

Lemma percentage_times_limit (usage limit : Z) :
  0 < limit ->
  (inject_Z usage * 100 / inject_Z limit * inject_Z limit
   == inject_Z usage * 100)%Q.
Proof.
  intros Hl. field. intros H.
  assert (0 < inject_Z limit)%Q by (rewrite <- (Zlt_Qlt 0); exact Hl).
  lra.
Qed.

Lemma percentage_above_90 (usage limit : Z) :
  0 < limit ->
  (90 < inject_Z usage * 100 / inject_Z limit)%Q
  <-> ((90 # 100) * inject_Z limit < inject_Z usage)%Q.
Proof.
  intros Hl.
  assert (HL : (0 < inject_Z limit)%Q) by (rewrite <- (Zlt_Qlt 0); exact Hl).
  pose proof (percentage_times_limit usage limit Hl) as Hx.
  set (x := (inject_Z usage * 100 / inject_Z limit)%Q) in *.
  rewrite <- (Qmult_lt_r 90 x (inject_Z limit) HL).
  rewrite Hx. split; intros H; lra.
Qed.

Lemma percentage_is_90 (usage limit : Z) :
  0 < limit ->
  ((90 # 100) * inject_Z limit == inject_Z usage)%Q ->
  (inject_Z usage * 100 / inject_Z limit == 90)%Q.
Proof.
  intros Hl H.
  assert (HL : (0 < inject_Z limit)%Q) by (rewrite <- (Zlt_Qlt 0); exact Hl).
  rewrite <- H. field. lra.
Qed.

(** C2 (as amended). With compression at 90% of a positive limit,
    [shouldCompress] holds exactly when usage has reached the threshold,
    while the usage bar is red exactly when [tokenPercentage] is strictly
    above 90, that is when usage is strictly above the threshold; at exactly
    90% the bar is yellow. *)
Theorem compression_trigger_and_display (usage limit : Z) :
  0 < limit ->
  let b := TokenBudgetManager.budget usage limit in
  (TokenBudgetManager.shouldCompress b = true
   <-> (TokenBudgetManager.threshold b <= inject_Z usage)%Q)
  /\ (forall tokenPercentage,
        ProgressDashboard.tokenBarColor tokenPercentage
        = ProgressDashboard.bg_red_600
        <-> gt tokenPercentage (Fin 90) = true)
  /\ ProgressDashboard.tokenBarColor (Fin 90) = ProgressDashboard.bg_yellow_600
  /\ (ProgressDashboard.tokenBarColor (TokenBudgetManager.tokenPercentage b)
      = ProgressDashboard.bg_red_600
      <-> (TokenBudgetManager.threshold b < inject_Z usage)%Q)
  /\ ((TokenBudgetManager.threshold b == inject_Z usage)%Q ->
      ProgressDashboard.tokenBarColor (TokenBudgetManager.tokenPercentage b)
      = ProgressDashboard.bg_yellow_600).
Proof.
  intros Hl b.
  split; [apply (shouldCompress_iff b)|].
  split; [apply tokenBarColor_red|].
  split; [reflexivity|].
  unfold TokenBudgetManager.tokenPercentage, TokenBudgetManager.threshold.
  cbn [b TokenBudgetManager.budget TokenBudgetManager.usage
       TokenBudgetManager.limit TokenBudgetManager.fraction].
  split.
  - rewrite tokenBarColor_red. unfold gt, lt. rewrite Qltb_lt.
    apply percentage_above_90. exact Hl.
  - intros H. apply (percentage_is_90 usage limit Hl) in H.
    unfold ProgressDashboard.tokenBarColor, gt, lt.
    set (x := (inject_Z usage * 100 / inject_Z limit)%Q) in *.
    assert (E1 : Qltb 90 x = false) by (apply Qltb_ge; lra).
    assert (E2 : Qltb 75 x = true) by (apply Qltb_lt; lra).
    rewrite E1, E2. reflexivity.
Qed.

Lemma compression_trigger_and_display_witness :
  TokenBudgetManager.shouldCompress
    (TokenBudgetManager.budget 180000 200000) = true
  /\ ProgressDashboard.tokenBarColor
       (TokenBudgetManager.tokenPercentage
          (TokenBudgetManager.budget 180000 200000))
     = ProgressDashboard.bg_yellow_600.
Proof.
  pose proof (compression_trigger_and_display 180000 200000 ltac:(lia))
    as [H1 [_ [_ [_ H5]]]].
  split.
  - apply H1. vm_compute. discriminate.
  - apply H5. vm_compute. reflexivity.
Defined.

(** C2, as stated, fails at exactly 90%: with 180000 of 200000 tokens used
    the manager asks for compression, and the bar is yellow, not red. *)
Lemma usage_flagged_at_trigger_fails :
  ~ usage_flagged_at_trigger 180000 200000.
Proof.
  intros [_ [_ H]].
  assert (Hle : (TokenBudgetManager.threshold
                   (TokenBudgetManager.budget 180000 200000)
                 <= inject_Z 180000)%Q)
    by (vm_compute; discriminate).
  specialize (H Hle). vm_compute in H. discriminate.
Qed.

(** ** CritiqueLoopController *)

Section LoopProperties.

Import CritiqueLoopController.

Variables Artifact Feedback : Type.
Variable producerAgent : option Feedback -> Artifact -> Artifact.
Variable criticAgent : nat -> Artifact -> Verdict Feedback.
Variable emptyFeedback : Feedback.

Local Abbreviation loop' :=
  (loop Artifact Feedback producerAgent criticAgent emptyFeedback).

Lemma artifact_from_shift (i k : nat) (fb : option Feedback) (a : Artifact) :
  artifact_from Artifact Feedback producerAgent criticAgent emptyFeedback
    i fb a (S k)
  = artifact_from Artifact Feedback producerAgent criticAgent emptyFeedback
      (S i)
      (Some (feedback_of Feedback emptyFeedback
               (criticAgent i (producerAgent fb a))))
      (producerAgent fb a) k.
Proof.
  induction k as [|k IH].
  - cbn. by rewrite Nat.add_0_r.
  - cbn [artifact_from] in *. rewrite IH.
    by replace (i + S k)%nat with (S i + k)%nat by lia.
Qed.

Lemma verdict_from_shift (i k : nat) (fb : option Feedback) (a : Artifact) :
  verdict_from Artifact Feedback producerAgent criticAgent emptyFeedback
    i fb a (S k)
  = verdict_from Artifact Feedback producerAgent criticAgent emptyFeedback
      (S i)
      (Some (feedback_of Feedback emptyFeedback
               (criticAgent i (producerAgent fb a))))
      (producerAgent fb a) k.
Proof.
  unfold verdict_from. rewrite artifact_from_shift.
  by replace (i + S k)%nat with (S i + k)%nat by lia.
Qed.

(** From any round before the cap, enough fuel for the remaining rounds
    gives a result, reached within the cap.  The result holds the artifact
    of its last round and the verdicts of all its rounds, no round before
    the last was approved, and the outcome tells whether the last one was;
    only an approval can end the loop before the cap. *)
Lemma loop_within_cap (maxIterations fuel iteration : nat)
    (log : list (Verdict Feedback)) (feedback : option Feedback)
    (a : Artifact) :
  (iteration < maxIterations)%nat ->
  (maxIterations - iteration <= fuel)%nat ->
  exists r n,
    loop' fuel maxIterations iteration log feedback a = Some r
    /\ rounds r = (iteration + S n)%nat
    /\ (iteration + S n <= maxIterations)%nat
    /\ verdicts r
       = log ++ List.map
                  (verdict_from Artifact Feedback producerAgent criticAgent
                     emptyFeedback iteration feedback a)
                  (seq 0 (S n))
    /\ artifact r
       = artifact_from Artifact Feedback producerAgent criticAgent
           emptyFeedback iteration feedback a n
    /\ (forall k, (k < n)%nat ->
        verdict_from Artifact Feedback producerAgent criticAgent
          emptyFeedback iteration feedback a k <> Approve)
    /\ (outcome r = approved <->
        verdict_from Artifact Feedback producerAgent criticAgent
          emptyFeedback iteration feedback a n = Approve)
    /\ (outcome r = auto_approved_at_cap ->
        (iteration + S n)%nat = maxIterations).
Proof.
  revert iteration log feedback a.
  induction fuel as [|fuel IH]; intros iteration log feedback a Hlt Hfuel;
    [lia|].
  cbn [loop].
  set (a' := producerAgent feedback a).
  set (v := criticAgent iteration a').
  assert (Hv0 : verdict_from Artifact Feedback producerAgent criticAgent
                  emptyFeedback iteration feedback a 0 = v)
    by (unfold verdict_from; cbn; by rewrite Nat.add_0_r).
  assert (Hrevise : v <> Approve ->
    exists r n,
      (if (S iteration =? maxIterations)%nat
       then Some {| artifact := a'; outcome := auto_approved_at_cap;
                    rounds := S iteration; verdicts := log ++ [v] |}
       else loop' fuel maxIterations (S iteration) (log ++ [v])
              (Some (feedback_of Feedback emptyFeedback v)) a') = Some r
      /\ rounds r = (iteration + S n)%nat
      /\ (iteration + S n <= maxIterations)%nat
      /\ verdicts r
         = log ++ List.map
                    (verdict_from Artifact Feedback producerAgent criticAgent
                       emptyFeedback iteration feedback a)
                    (seq 0 (S n))
      /\ artifact r
         = artifact_from Artifact Feedback producerAgent criticAgent
             emptyFeedback iteration feedback a n
      /\ (forall k, (k < n)%nat ->
          verdict_from Artifact Feedback producerAgent criticAgent
            emptyFeedback iteration feedback a k <> Approve)
      /\ (outcome r = approved <->
          verdict_from Artifact Feedback producerAgent criticAgent
            emptyFeedback iteration feedback a n = Approve)
      /\ (outcome r = auto_approved_at_cap ->
          (iteration + S n)%nat = maxIterations)).
  { intros Hv.
    destruct (Nat.eqb_spec (S iteration) maxIterations) as [E|E].
    - eexists _, 0%nat. split; [reflexivity|].
      cbn [rounds outcome verdicts artifact seq List.map].
      rewrite Hv0.
      repeat split; try done; try lia.
    - destruct (IH (S iteration) (log ++ [v])
                  (Some (feedback_of Feedback emptyFeedback v)) a')
        as (r & n & Hr & Hrounds & Hcap & Hlog & Hart & Hbefore & Hout & Hauto);
        [lia | lia |].
      exists r, (S n). split; [exact Hr|].
      split; [lia|]. split; [lia|].
      split.
      { rewrite Hlog, <- app_assoc. f_equal.
        change (seq 0 (S (S n))) with (0%nat :: seq 1 (S n)).
        rewrite <- seq_shift, List.map_cons, List.map_map, Hv0.
        cbn [app]. f_equal.
        apply List.map_ext. intros k. symmetry. apply verdict_from_shift. }
      split; [by rewrite artifact_from_shift|].
      split.
      { intros [|k] Hk; [by rewrite Hv0|].
        rewrite verdict_from_shift. apply Hbefore. lia. }
      split; [by rewrite verdict_from_shift|].
      intros H. apply Hauto in H. lia. }
  destruct v as [|fb|] eqn:V.
  - eexists _, 0%nat. split; [reflexivity|].
    cbn [rounds outcome verdicts artifact seq List.map].
    rewrite Hv0. repeat split; try done; lia.
  - apply Hrevise. done.
  - apply Hrevise. done.
Qed.

(** A result needs fuel for each of its rounds, and more fuel does not
    change it. *)
Lemma loop_needs_fuel (maxIterations fuel iteration : nat)
    (log : list (Verdict Feedback)) (feedback : option Feedback)
    (a : Artifact) (r : LoopResult Artifact Feedback) :
  loop' fuel maxIterations iteration log feedback a = Some r ->
  (iteration < rounds r)%nat /\ (rounds r - iteration <= fuel)%nat.
Proof.
  revert iteration log feedback a.
  induction fuel as [|fuel IH]; intros iteration log feedback a; [done|].
  cbn [loop].
  destruct (criticAgent iteration (producerAgent feedback a)).
  - intros [= <-]. cbn. lia.
  - destruct (S iteration =? maxIterations)%nat.
    + intros [= <-]. cbn. lia.
    + intros H. apply IH in H. lia.
  - destruct (S iteration =? maxIterations)%nat.
    + intros [= <-]. cbn. lia.
    + intros H. apply IH in H. lia.
Qed.

Lemma loop_more_fuel (maxIterations fuel fuel' iteration : nat)
    (log : list (Verdict Feedback)) (feedback : option Feedback)
    (a : Artifact) (r : LoopResult Artifact Feedback) :
  loop' fuel maxIterations iteration log feedback a = Some r ->
  (fuel <= fuel')%nat ->
  loop' fuel' maxIterations iteration log feedback a = Some r.
Proof.
  revert fuel' iteration log feedback a.
  induction fuel as [|fuel IH]; intros fuel' iteration log feedback a;
    [done|].
  intros H Hle. destruct fuel' as [|fuel']; [lia|].
  cbn [loop] in *.
  destruct (criticAgent iteration (producerAgent feedback a)); [done| |];
    (destruct (S iteration =? maxIterations)%nat; [done|]);
    (apply IH; [done | lia]).
Qed.

End LoopProperties.

(** C1. For every maxIterations >= 1, [runLoop] returns (given fuel for
    maxIterations rounds) after at least one and at most maxIterations
    producer/critic rounds, and with less fuel than its rounds it does not
    return.  What it returns is what those rounds produced: the verdicts are
    the critic's verdicts on the producer's artifacts, round by round, the
    artifact is that of the last round, no round before the last was
    approved, and the outcome is [approved] exactly when the last one was.
    The outcome [auto_approved_at_cap] is only given at the cap; and when
    the critic never approves, the loop returns after exactly maxIterations
    rounds with [auto_approved_at_cap]. *)
Theorem runLoop_bounded (Artifact Feedback : Type)
    (producerAgent : option Feedback -> Artifact -> Artifact)
    (criticAgent : nat -> Artifact -> CritiqueLoopController.Verdict Feedback)
    (emptyFeedback : Feedback) (a : Artifact) (maxIterations fuel : nat) :
  (1 <= maxIterations)%nat ->
  (maxIterations <= fuel)%nat ->
  exists r,
    CritiqueLoopController.runLoop Artifact Feedback producerAgent
      criticAgent emptyFeedback fuel a maxIterations = Some r
    /\ (1 <= CritiqueLoopController.rounds r <= maxIterations)%nat
    /\ length (CritiqueLoopController.verdicts r)
       = CritiqueLoopController.rounds r
    /\ (CritiqueLoopController.outcome r
        = CritiqueLoopController.auto_approved_at_cap ->
        CritiqueLoopController.rounds r = maxIterations)
    /\ (CritiqueLoopController.never_approves Artifact Feedback criticAgent ->
        CritiqueLoopController.rounds r = maxIterations
        /\ CritiqueLoopController.outcome r
           = CritiqueLoopController.auto_approved_at_cap)
    /\ CritiqueLoopController.verdicts r
       = List.map
           (CritiqueLoopController.round_verdict Artifact Feedback
              producerAgent criticAgent emptyFeedback a)
           (seq 0 (CritiqueLoopController.rounds r))
    /\ CritiqueLoopController.artifact r
       = CritiqueLoopController.round_artifact Artifact Feedback
           producerAgent criticAgent emptyFeedback a
           (CritiqueLoopController.rounds r - 1)
    /\ (forall k, (k < CritiqueLoopController.rounds r - 1)%nat ->
        CritiqueLoopController.round_verdict Artifact Feedback
          producerAgent criticAgent emptyFeedback a k
        <> CritiqueLoopController.Approve)
    /\ (CritiqueLoopController.outcome r = CritiqueLoopController.approved
        <-> CritiqueLoopController.round_verdict Artifact Feedback
              producerAgent criticAgent emptyFeedback a
              (CritiqueLoopController.rounds r - 1)
            = CritiqueLoopController.Approve)
    /\ (forall fuel', (fuel' < CritiqueLoopController.rounds r)%nat ->
        CritiqueLoopController.runLoop Artifact Feedback producerAgent
          criticAgent emptyFeedback fuel' a maxIterations = None).
Proof.
  intros Hmax Hfuel.
  unfold CritiqueLoopController.runLoop,
    CritiqueLoopController.round_verdict,
    CritiqueLoopController.round_artifact.
  destruct (loop_within_cap Artifact Feedback producerAgent criticAgent
              emptyFeedback maxIterations fuel 0 [] None a)
    as (r & n & Hr & Hrounds & Hcap & Hlog & Hart & Hbefore & Hout & Hauto);
    [lia | lia |].
  cbn [Nat.add app] in *. exists r. rewrite Hrounds.
  replace (S n - 1)%nat with n by lia.
  split; [exact Hr|]. split; [lia|].
  split; [by rewrite Hlog, length_map, length_seq|].
  split; [exact Hauto|].
  split.
  { intros Hnever.
    assert (Ho : CritiqueLoopController.outcome r
                 = CritiqueLoopController.auto_approved_at_cap).
    { destruct (CritiqueLoopController.outcome r) eqn:O; [|done].
      exfalso. apply (Hnever (0 + n)%nat
                        (CritiqueLoopController.artifact_from Artifact
                           Feedback producerAgent criticAgent emptyFeedback
                           0 None a n)).
      by apply Hout. }
    split; [by apply Hauto | exact Ho]. }
  split; [exact Hlog|]. split; [exact Hart|].
  split; [exact Hbefore|]. split; [exact Hout|].
  intros fuel' Hlt.
  destruct (CritiqueLoopController.loop Artifact Feedback producerAgent
              criticAgent emptyFeedback fuel' maxIterations 0 [] None a)
    as [r'|] eqn:E; [|done].
  exfalso.
  pose proof (loop_needs_fuel _ _ _ _ _ _ _ _ _ _ _ _ E) as [_ Hneed].
  rewrite (loop_more_fuel _ _ _ _ _ _ fuel' fuel _ _ _ _ _ E) in Hr by lia.
  injection Hr as ->. lia.
Qed.

(** The scenario of the interface description: a cap of 2 and a critic that
    always asks for a revision. *)
Lemma runLoop_bounded_witness :
  exists r,
    CritiqueLoopController.runLoop nat unit (fun _ n => S n)
      (fun _ _ => CritiqueLoopController.Revise tt) tt 2 0%nat 2 = Some r
    /\ CritiqueLoopController.rounds r = 2%nat
    /\ CritiqueLoopController.outcome r
       = CritiqueLoopController.auto_approved_at_cap.
Proof.
  destruct (runLoop_bounded nat unit (fun _ n => S n)
              (fun _ _ => CritiqueLoopController.Revise tt) tt 0%nat 2 2
              ltac:(lia) ltac:(lia))
    as [r [Hr [_ [_ [_ [Hn _]]]]]].
  exists r. split; [exact Hr|]. apply Hn. intros i a. discriminate.
Defined.

(** With a cap of 0 the count never meets the cap: the loop of the
    description only ends on an approval. *)
Lemma runLoop_cap_zero (fuel : nat) :
  CritiqueLoopController.runLoop nat unit (fun _ n => S n)
    (fun _ _ => CritiqueLoopController.Revise tt) tt fuel 0%nat 0 = None.
Proof.
  unfold CritiqueLoopController.runLoop.
  assert (H : forall i log fb a,
    CritiqueLoopController.loop nat unit (fun _ n => S n)
      (fun _ _ => CritiqueLoopController.Revise tt) tt fuel 0 i log fb a
    = None).
  { induction fuel as [|fuel IH]; intros i log fb a; [reflexivity|].
    cbn [CritiqueLoopController.loop]. cbn [Nat.eqb]. apply IH. }
  apply H.
Qed.

(** ** PhaseStateMachine *)

Section MachineProperties.

Import PhaseStateMachine.

Variable cfg : Settings.

Lemma advance_not_awaiting (st : PipelineState) :
  status st = Running -> awaits_in_critique (advance cfg st).
Proof.
  intros H. unfold awaits_in_critique, advance.
  destruct (phase st); try (rewrite H; done); try done.
  destruct (_ <=? _)%nat; done.
Qed.

Lemma step_awaits_in_critique (e : Event) (st : PipelineState) :
  awaits_in_critique st -> awaits_in_critique (step cfg e st).
Proof.
  intros Hst. destruct e as [| |d]; cbn [step].
  - unfold produced.
    destruct (status st) eqn:S; try exact Hst.
    destruct (phase st) eqn:P; try exact Hst; done.
  - unfold loopResolved.
    destruct (status st) eqn:S; try exact Hst.
    destruct (phase st) eqn:P; try exact Hst.
    + destruct (require_plan_approval cfg);
        [unfold awaits_in_critique; cbn; try rewrite P; done
        | by apply advance_not_awaiting].
    + destruct (require_chunk_approval cfg);
        [unfold awaits_in_critique; cbn; try rewrite P; done
        | by apply advance_not_awaiting].
  - unfold submitDecision.
    destruct (status st) eqn:S; try exact Hst.
    destruct (ApprovalModal.approved d); [|done].
    by apply advance_not_awaiting.
Qed.

Lemma run_awaits_in_critique (es : list Event) :
  awaits_in_critique (run cfg es).
Proof.
  unfold run.
  assert (H : forall st, awaits_in_critique st ->
            awaits_in_critique (fold_left (fun st e => step cfg e st) es st)).
  { induction es as [|e es IH]; intros st Hst; [exact Hst|].
    cbn [fold_left]. apply IH. by apply step_awaits_in_critique. }
  apply H. done.
Qed.

End MachineProperties.

(** C3. A rejected decision on the outstanding approval request keeps the
    phase: the pipeline is running again, not paused or failed, in the same
    phase, hence at no earlier one; the iteration count of the critique loop
    is one higher and the notes of the decision are the feedback handed to
    it.  In a state reached from the start by the machine's events that
    phase is a critique phase. *)
Theorem rejection_repeats_critique (cfg : PhaseStateMachine.Settings)
    (st : PhaseStateMachine.PipelineState)
    (request : PhaseStateMachine.ApprovalRequest)
    (d : ApprovalModal.Decision) :
  PhaseStateMachine.status st = PhaseStateMachine.AwaitingApproval request ->
  ApprovalModal.approved d = false ->
  let st' := PhaseStateMachine.submitDecision cfg d st in
  PhaseStateMachine.phase st' = PhaseStateMachine.phase st
  /\ (PhaseStateMachine.rank (PhaseStateMachine.phase st)
      <= PhaseStateMachine.rank (PhaseStateMachine.phase st'))%nat
  /\ PhaseStateMachine.iteration st' = S (PhaseStateMachine.iteration st)
  /\ PhaseStateMachine.feedback st' = ApprovalModal.notes d
  /\ PhaseStateMachine.status st' = PhaseStateMachine.Running
  /\ ((exists es, st = PhaseStateMachine.run cfg es) ->
      PhaseStateMachine.is_critique (PhaseStateMachine.phase st') = true).
Proof.
  intros Hs Hd st'. subst st'. unfold PhaseStateMachine.submitDecision.
  rewrite Hs, Hd. cbn.
  repeat split; try done.
  intros [es ->].
  pose proof (run_awaits_in_critique cfg es) as H.
  unfold PhaseStateMachine.awaits_in_critique in H. rewrite Hs in H. exact H.
Qed.

Lemma rejection_repeats_critique_witness :
  let cfg := {| PhaseStateMachine.require_plan_approval := true;
                PhaseStateMachine.require_chunk_approval := false;
                PhaseStateMachine.total_chunks := 3 |} in
  let st := PhaseStateMachine.run cfg
              [PhaseStateMachine.Produced; PhaseStateMachine.LoopResolved] in
  let d := {| ApprovalModal.approved := false;
              ApprovalModal.notes := Some (str "tighten act two") |} in
  PhaseStateMachine.phase st = PhaseStateMachine.PLAN_CRITIQUE
  /\ PhaseStateMachine.phase (PhaseStateMachine.submitDecision cfg d st)
     = PhaseStateMachine.PLAN_CRITIQUE
  /\ PhaseStateMachine.iteration (PhaseStateMachine.submitDecision cfg d st)
     = 1%nat.
Proof.
  intros cfg st d.
  pose proof (rejection_repeats_critique cfg st
                {| PhaseStateMachine.kind := PhaseStateMachine.plan;
                   PhaseStateMachine.artifactRef := 0 |}
                d eq_refl eq_refl) as [H1 [_ [H3 _]]].
  split; [reflexivity|]. split; [rewrite H1; reflexivity | exact H3].
Defined.

(** ** ConfigPanel *)

Lemma blank_false_iff (s : option jsstring) :
  ConfigPanel.blank s = false <-> ConfigPanel.non_blank s.
Proof.
  unfold ConfigPanel.blank, ConfigPanel.non_blank.
  destruct s as [t|].
  - rewrite negb_false_iff. split.
    + intros H. exists t. split; [done|]. intros E. rewrite E in H. done.
    + intros [t' [[= <-] H]]. by destruct (trim t).
  - split; [done|]. intros [t [H _]]. done.
Qed.

Lemma word_count_ok_iff (n : option number) :
  ConfigPanel.word_count_too_small n = false <-> ConfigPanel.at_least_1000 n.
Proof.
  unfold ConfigPanel.word_count_too_small, ConfigPanel.at_least_1000.
  destruct n as [[| | q |]|]; cbn; try done.
  rewrite orb_false_iff, negb_false_iff, negb_true_iff, Qltb_ge.
  split; [tauto|]. intros H. split; [|done].
  destruct (Qeq_bool q 0) eqn:E; [|done].
  apply Qeq_bool_iff in E. lra.
Qed.

Lemma sample_ok_iff (s : option jsstring) :
  ConfigPanel.sample_too_short s = false <-> ConfigPanel.sample_long_enough s.
Proof.
  unfold ConfigPanel.sample_too_short, ConfigPanel.sample_long_enough, strlen.
  destruct s as [t|]; [|done].
  rewrite andb_false_iff, Z.ltb_ge.
  destruct t as [|c t]; cbn [truthy_string].
  - split; [by left | by left].
  - split; [intros [H|H]; [done | right; lia]
           | intros [H|H]; [done | right; lia]].
Qed.

Lemma newErrors_empty_iff (c : ConfigPanel.Config) :
  ConfigPanel.newErrors c = ∅ <->
  ConfigPanel.blank (ConfigPanel.project_name c) = false
  /\ ConfigPanel.blank (ConfigPanel.theme c) = false
  /\ (ConfigPanel.novel_length c = Some (str "custom") ->
      ConfigPanel.word_count_too_small (ConfigPanel.custom_word_count c)
      = false)
  /\ ConfigPanel.sample_too_short (ConfigPanel.custom_writing_sample c)
     = false.
Proof.
  unfold ConfigPanel.newErrors.
  destruct (ConfigPanel.blank (ConfigPanel.project_name c)),
    (ConfigPanel.blank (ConfigPanel.theme c)),
    (ConfigPanel.sample_too_short (ConfigPanel.custom_writing_sample c));
    case_bool_decide as Hc;
    destruct (ConfigPanel.word_count_too_small
                (ConfigPanel.custom_word_count c));
    (split;
     [ intros H; try (by apply insert_non_empty in H); repeat split; done
     | intros (H1 & H2 & H3 & H4);
       try discriminate; try (specialize (H3 Hc); discriminate); done ]).
Qed.

Lemma newErrors_lookup (c : ConfigPanel.Config) :
  ConfigPanel.newErrors c !! "project_name"
  = (if ConfigPanel.blank (ConfigPanel.project_name c)
     then Some (str "Project name is required") else None)
  /\ ConfigPanel.newErrors c !! "theme"
     = (if ConfigPanel.blank (ConfigPanel.theme c)
        then Some (str "Theme is required") else None)
  /\ ConfigPanel.newErrors c !! "custom_word_count"
     = (if bool_decide (ConfigPanel.novel_length c = Some (str "custom"))
           && ConfigPanel.word_count_too_small
                (ConfigPanel.custom_word_count c)
        then Some (str "Word count must be at least 1,000 words") else None)
  /\ ConfigPanel.newErrors c !! "custom_writing_sample"
     = (if ConfigPanel.sample_too_short (ConfigPanel.custom_writing_sample c)
        then Some (str "Writing sample must be at least 100 characters")
        else None).
Proof.
  unfold ConfigPanel.newErrors.
  destruct (ConfigPanel.blank (ConfigPanel.project_name c)),
    (ConfigPanel.blank (ConfigPanel.theme c)),
    (ConfigPanel.sample_too_short (ConfigPanel.custom_writing_sample c)),
    (bool_decide (ConfigPanel.novel_length c = Some (str "custom"))),
    (ConfigPanel.word_count_too_small (ConfigPanel.custom_word_count c));
    repeat split.
Qed.

Lemma if_some_iff {A : Type} (b : bool) (m : A) :
  (if b then Some m else None) = Some m <-> b = true.
Proof. destruct b; split; done. Qed.

Lemma validate_ok_iff (st : ConfigPanel.State) :
  snd (ConfigPanel.validate st) = true
  <-> ConfigPanel.valid (ConfigPanel.config st).
Proof.
  unfold ConfigPanel.validate, ConfigPanel.valid. cbn [snd].
  rewrite bool_decide_eq_true, map_size_empty_iff, newErrors_empty_iff.
  rewrite !blank_false_iff, sample_ok_iff.
  split; intros (H1 & H2 & H3 & H4); repeat split; try done;
    intros Hc; apply word_count_ok_iff; by apply H3.
Qed.

(** C5. Submitting the form calls [onSave(config)], once, exactly when the
    config is valid: project name and theme non-blank after trimming, a
    custom length with a word count of at least 1000, a writing sample
    empty or of at least 100 characters.  Otherwise nothing is called and
    the error object is not empty.  In both cases the config cell is left
    as it was, and the error object holds under each field's name its
    message exactly when that field's condition fails. *)
Theorem submit_iff_valid (st : ConfigPanel.State) :
  let c := ConfigPanel.config st in
  let st' := fst (ConfigPanel.handleSubmit st) in
  let calls := snd (ConfigPanel.handleSubmit st) in
  ConfigPanel.config st' = c
  /\ (calls = [ConfigPanel.onSave c] <-> ConfigPanel.valid c)
  /\ (calls = [] <-> ~ ConfigPanel.valid c)
  /\ (ConfigPanel.errors st' <> ∅ <-> ~ ConfigPanel.valid c)
  /\ (ConfigPanel.errors st' !! "project_name"
      = Some (str "Project name is required")
      <-> ~ ConfigPanel.non_blank (ConfigPanel.project_name c))
  /\ (ConfigPanel.errors st' !! "theme" = Some (str "Theme is required")
      <-> ~ ConfigPanel.non_blank (ConfigPanel.theme c))
  /\ (ConfigPanel.errors st' !! "custom_word_count"
      = Some (str "Word count must be at least 1,000 words")
      <-> ConfigPanel.novel_length c = Some (str "custom")
          /\ ~ ConfigPanel.at_least_1000 (ConfigPanel.custom_word_count c))
  /\ (ConfigPanel.errors st' !! "custom_writing_sample"
      = Some (str "Writing sample must be at least 100 characters")
      <-> ~ ConfigPanel.sample_long_enough
            (ConfigPanel.custom_writing_sample c)).
Proof.
  intros c st' calls.
  pose proof (validate_ok_iff st) as Hv. fold c in Hv.
  assert (Hst' : st' = fst (ConfigPanel.validate st)).
  { unfold st', ConfigPanel.handleSubmit.
    destruct (ConfigPanel.validate st) as [s ok]. by destruct ok. }
  assert (Hcalls : calls = if snd (ConfigPanel.validate st)
                           then [ConfigPanel.onSave c] else []).
  { unfold calls, ConfigPanel.handleSubmit, c.
    destruct (ConfigPanel.validate st) as [s ok] eqn:E.
    assert (ConfigPanel.config s = ConfigPanel.config st)
      by (unfold ConfigPanel.validate in E; by inversion E).
    destruct ok; cbn; congruence. }
  assert (Herr : ConfigPanel.errors st' = ConfigPanel.newErrors c)
    by (rewrite Hst'; reflexivity).
  destruct (newErrors_lookup c) as (L1 & L2 & L3 & L4).
  split; [rewrite Hst'; reflexivity|].
  split; [|split; [|split]].
  - rewrite Hcalls, <- Hv. destruct (snd (ConfigPanel.validate st)); done.
  - rewrite Hcalls, <- Hv. destruct (snd (ConfigPanel.validate st)); done.
  - rewrite Herr, <- Hv. unfold ConfigPanel.validate. cbn [snd]. fold c.
    rewrite bool_decide_eq_true, map_size_empty_iff. done.
  - rewrite Herr, L1, L2, L3, L4.
    rewrite <- !blank_false_iff, <- word_count_ok_iff, <- sample_ok_iff.
    rewrite !if_some_iff, andb_true_iff, bool_decide_eq_true.
    rewrite !not_false_iff_true. done.
Qed.

(** ** Project creation requests *)

Lemma find_some {A : Type} (p : A -> bool) (l : list A) (x : A) :
  find p l = Some x -> p x = true.
Proof.
  induction l as [|a l IH]; cbn [find]; [done|].
  destruct (p a) eqn:E; [|exact IH]. by intros [= <-].
Qed.

Lemma quality_reachable_inv (q : obj) :
  Home.quality_reachable q ->
  (exists n, q !! "max_plan_critique_iterations" = Some (VNum n))
  /\ (exists n, q !! "max_write_critique_iterations" = Some (VNum n))
  /\ (forall k : string,
        k <> "max_plan_critique_iterations" ->
        k <> "max_write_critique_iterations" ->
        q !! k = None).
Proof.
  induction 1 as [|q n _ (Hp & Hw & Ho)|q n _ (Hp & Hw & Ho)];
    unfold Home.handleChange, Home.initialQualityConfig.
  - split; [by eexists|]. split; [by eexists|].
    intros k H1 H2. by rewrite !lookup_insert_ne, lookup_empty.
  - split; [eexists; by rewrite lookup_insert_eq|].
    split; [by rewrite lookup_insert_ne|].
    intros k H1 H2. rewrite lookup_insert_ne by done. by apply Ho.
  - split; [by rewrite lookup_insert_ne|].
    split; [eexists; by rewrite lookup_insert_eq|].
    intros k H1 H2. rewrite lookup_insert_ne by done. by apply Ho.
Qed.

Lemma json_number_is_Some (n : number) : is_Some (json_value (VNum n)).
Proof. destruct n; by eexists. Qed.

Lemma str_or_undefined_trim (s : jsstring) :
  json_value (Home.str_or_undefined (trim s))
  = if forallb isWhiteSpace s then None else Some (VStr (trim s)).
Proof.
  unfold Home.str_or_undefined. rewrite or_undefined_trim.
  by destruct (forallb isWhiteSpace s).
Qed.

Lemma request_body_whole (c : ConfigPanel.Config) :
  whole_configuration c (ConfigPanel.request_body c).
Proof.
  unfold whole_configuration, ConfigPanel.request_body, JSON_stringify,
    ConfigPanel.config_obj.
  rewrite !lookup_omap.
  repeat (rewrite lookup_insert_eq || rewrite lookup_insert_ne by done).
  cbn [mbind option_bind].
  destruct c as [pn th mi nl wc ge ws cs mp mw rp rc];
    cbn [ConfigPanel.project_name ConfigPanel.theme ConfigPanel.model_id
         ConfigPanel.novel_length ConfigPanel.custom_word_count
         ConfigPanel.genre ConfigPanel.writing_sample_id
         ConfigPanel.custom_writing_sample
         ConfigPanel.max_plan_critique_iterations
         ConfigPanel.max_write_critique_iterations
         ConfigPanel.require_plan_approval
         ConfigPanel.require_chunk_approval].
  repeat split;
    try (by destruct pn); try (by destruct th); try (by destruct nl);
    try (by destruct ge); try (by destruct ws); try (by destruct cs);
    try (by destruct wc as [[| |q|]|]);
    try (by destruct mp); by destruct mw.
Qed.

(** A body with the whole configuration has, in particular, what the data
    model assigns to a project. *)
Lemma whole_configuration_full (c : ConfigPanel.Config) (body : obj) :
  whole_configuration c body -> full_configuration body.
Proof.
  intros (_ & Ht & Hm & Hl & _ & Hg & _ & Hs & Hp & Hw & Hrp & Hrc).
  unfold full_configuration.
  rewrite Ht, Hm, Hl, Hg, Hs, Hp, Hw, Hrp, Hrc.
  repeat split; try (left); by eexists.
Qed.

(** C6 (as amended). The config that the ConfigPanel form hands to
    [onSave], posted with [api.createProject], gives a request whose body
    has every one of the twelve properties of the config (project name,
    theme, model, length preset and word count, genre, both writing-sample
    properties, both critique caps and both approval flags), with [null]
    for what is not set; so it has the full configuration.  A request from
    the Home page (sent once the premise is not blank) carries the theme,
    both approval flags and both critique caps; it carries a project name,
    a genre, a length and a writing sample only when the user gave one; and
    it never carries a selected model, a word count nor a writing-sample
    id. *)
Theorem creation_request_contents (st : Home.State) (c : ConfigPanel.Config)
    (base : jsstring) :
  Home.quality_reachable (Home.qualityConfig st) ->
  trim (Home.premise st) <> [] ->
  (Api.req_body (Api.createProject base (ConfigPanel.config_obj c))
   = Some (ConfigPanel.request_body c)
   /\ whole_configuration c (ConfigPanel.request_body c)
   /\ full_configuration (ConfigPanel.request_body c))
  /\ exists body,
       Home.handleCreateProject st = Home.createProject body
       /\ body !! "theme" = Some (VStr (trim (Home.premise st)))
       /\ body !! "require_plan_approval"
          = Some (VBool (Home.requirePlanApproval st))
       /\ body !! "require_chunk_approval"
          = Some (VBool (Home.requireChunkApproval st))
       /\ is_Some (body !! "max_plan_critique_iterations")
       /\ is_Some (body !! "max_write_critique_iterations")
       /\ body !! "model_id" = None
       /\ body !! "custom_word_count" = None
       /\ body !! "project_name"
          = (if forallb isWhiteSpace (Home.title st) then None
             else Some (VStr (trim (Home.title st))))
       /\ body !! "genre"
          = (if forallb isWhiteSpace (Home.genre st) then None
             else Some (VStr (trim (Home.genre st))))
       /\ body !! "novel_length"
          = (if bool_decide (Home.length st = str "ai_decide") then None
             else Some (VStr (Home.length st)))
       /\ body !! "custom_writing_sample"
          = match find Home.has_sample (Home.styleCards st) with
            | Some card => VStr <$> Home.sample card
            | None => None
            end
       /\ body !! "writing_sample_id" = None.
Proof.
  intros Hq Hp. split.
  { split; [reflexivity|]. split; [apply request_body_whole|].
    apply (whole_configuration_full c), request_body_whole. }
  destruct (quality_reachable_inv _ Hq) as ([np Hnp] & [nw Hnw] & Ho).
  exists (JSON_stringify (Home.config_of st)).
  split.
  { unfold Home.handleCreateProject.
    destruct (trim (Home.premise st)); [done|reflexivity]. }
  unfold JSON_stringify, Home.config_of. rewrite !lookup_omap.
  rewrite !(lookup_union_l' _ _ "max_plan_critique_iterations") by by eexists.
  rewrite !(lookup_union_l' _ _ "max_write_critique_iterations") by by eexists.
  rewrite Hnp, Hnw.
  rewrite !lookup_union_r by (by apply Ho).
  repeat (rewrite lookup_insert_eq || rewrite lookup_insert_ne by done).
  rewrite lookup_empty. cbn [mbind option_bind].
  rewrite !str_or_undefined_trim.
  repeat split; try apply json_number_is_Some.
  - by case_bool_decide.
  - destruct (find Home.has_sample (Home.styleCards st)) as [card|] eqn:F;
      [|done].
    apply find_some in F. unfold Home.has_sample in F.
    destruct (Home.sample card) as [s|]; [|done].
    destruct s as [|ch s]; [done|reflexivity].
Qed.

Lemma creation_request_contents_witness :
  exists body,
    Home.handleCreateProject Home.filledState = Home.createProject body
    /\ body !! "theme" = Some (VStr (str "A detective in Victorian London"))
    /\ body !! "model_id" = None.
Proof.
  destruct (creation_request_contents Home.filledState
              ConfigPanel.defaultConfig (str "http://localhost:8000/api")
              Home.quality_initial ltac:(vm_compute; discriminate))
    as [_ [body (H & Ht & _ & _ & _ & _ & Hm & _)]].
  exists body. split; [exact H|]. split; [exact Ht | exact Hm].
Defined.

(** C6, as stated, fails on the Home page: even with every input of the
    form filled in, the request has no selected model. *)
Lemma home_request_not_full :
  exists body,
    Home.handleCreateProject Home.filledState = Home.createProject body
    /\ ~ full_configuration body.
Proof.
  exists (JSON_stringify (Home.config_of Home.filledState)).
  split; [reflexivity|].
  intros (_ & _ & _ & [v Hv] & _).
  vm_compute in Hv. discriminate.
Qed.

(** ** The code on concrete inputs *)

Example trim_example :
  trim (str "  tighten act two " ++ [10%N; 160%N]) = str "tighten act two".
Proof. reflexivity. Qed.

Example reject_blank_notes :
  ApprovalModal.handleReject (str "   ")
  = (ApprovalModal.onReject
       {| ApprovalModal.approved := false; ApprovalModal.notes := None |},
     []).
Proof. reflexivity. Qed.

Example chunk_12_files :
  ApprovalModal.files
    (ApprovalModal.getApprovalInfo (VStr (str "chunk"))
       (Some {| ApprovalModal.chunk_number :=
                  Some {| safe_value := 12; safe_bound := eq_refl |} |}))
  = [ str "chunk_12.txt - Chunk content" ].
Proof. reflexivity. Qed.

Example chunk_without_payload_files :
  ApprovalModal.files
    (ApprovalModal.getApprovalInfo (VStr (str "chunk")) None)
  = [ str "chunk_?.txt - Chunk content" ].
Proof. reflexivity. Qed.

Example writing_phase_index :
  ProgressDashboard.getCurrentPhaseIndex (VStr (str "WRITING")) = 2.
Proof. reflexivity. Qed.

Example writing_phase_steps :
  List.map ProgressDashboard.circleClass
    (ProgressDashboard.renderPhaseSteps (VStr (str "WRITING")))
  = [ str "bg-green-600 text-white"; str "bg-green-600 text-white";
      str "bg-blue-600 text-white"; str "bg-gray-200 text-gray-400" ].
Proof. reflexivity. Qed.

Example bar_just_above_90 :
  ProgressDashboard.tokenBarColor (Fin (901 # 10))
  = ProgressDashboard.bg_red_600.
Proof. reflexivity. Qed.

Example bar_width_over_limit :
  ProgressDashboard.tokenBarWidth (Fin 150) = Fin 100.
Proof. reflexivity. Qed.

Example bar_width_nan : ProgressDashboard.tokenBarWidth NaN = NaN.
Proof. reflexivity. Qed.

Example submit_default_config :
  snd (ConfigPanel.handleSubmit
         {| ConfigPanel.config := ConfigPanel.defaultConfig;
            ConfigPanel.errors := ∅ |}) = []
  /\ ConfigPanel.newErrors ConfigPanel.defaultConfig !! "theme"
     = Some (str "Theme is required").
Proof. split; reflexivity. Qed.

Example home_blank_premise :
  Home.handleCreateProject Home.initialState
  = Home.setError (str "Please enter a premise for your novel").
Proof. reflexivity. Qed.

Example loop_approved_second_round :
  CritiqueLoopController.runLoop nat unit (fun _ n => S n)
    (fun i _ => if (i =? 1)%nat then CritiqueLoopController.Approve
                else CritiqueLoopController.Revise tt)
    tt 5 0%nat 5
  = Some {| CritiqueLoopController.artifact := 2%nat;
            CritiqueLoopController.outcome := CritiqueLoopController.approved;
            CritiqueLoopController.rounds := 2;
            CritiqueLoopController.verdicts :=
              [ CritiqueLoopController.Revise tt;
                CritiqueLoopController.Approve ] |}.
Proof. reflexivity. Qed.

(** * Further properties of the front end *)

(** ** Strings *)

Lemma startsWith_iff (s t : jsstring) :
  startsWith s t = true <-> exists post, s = t ++ post.
Proof.
  revert s. induction t as [|b t IH]; intros s; cbn [startsWith].
  - destruct s; cbn; (split; [intros _; by eexists | done]).
  - destruct s as [|a s]; cbn [startsWith].
    + split; [done | intros [post H]; done].
    + rewrite andb_true_iff, N.eqb_eq, IH. split.
      * intros [-> [post ->]]. by exists post.
      * intros [post [= -> ->]]. split; [done | by exists post].
Qed.

Lemma includes_iff (s t : jsstring) :
  includes s t = true <-> exists pre post, s = pre ++ t ++ post.
Proof.
  induction s as [|a s IH]; cbn [includes].
  - rewrite orb_false_r, startsWith_iff. split.
    + intros [post H]. by exists [], post.
    + intros [pre [post H]]. destruct pre; [by exists post | done].
  - rewrite orb_true_iff, startsWith_iff, IH. split.
    + intros [[post H] | [pre [post H]]].
      * by exists [], post.
      * exists (a :: pre), post. by rewrite H.
    + intros [pre [post H]]. destruct pre as [|c pre].
      * left. by exists post.
      * right. injection H as -> ->. by exists pre, post.
Qed.

Lemma includes_nil (s : jsstring) : includes s [] = true.
Proof. apply includes_iff. by exists [], s. Qed.

Lemma trimStart_pad (pre s : jsstring) :
  forallb isWhiteSpace pre = true -> trimStart (pre ++ s) = trimStart s.
Proof.
  induction pre as [|c pre IH]; cbn; [done|].
  destruct (isWhiteSpace c); [exact IH | done].
Qed.

Lemma trimStart_app (s t : jsstring) :
  trimStart s <> [] -> trimStart (s ++ t) = trimStart s ++ t.
Proof.
  induction s as [|c s IH]; cbn; [done|].
  destruct (isWhiteSpace c); [exact IH | done].
Qed.

Lemma trimEnd_pad (s post : jsstring) :
  forallb isWhiteSpace post = true -> trimEnd (s ++ post) = trimEnd s.
Proof.
  intros H. unfold trimEnd. rewrite rev_app_distr, trimStart_pad; [done|].
  by rewrite forallb_rev.
Qed.

(** White space around a text does not show in its trimmed form. *)
Lemma trim_pad (pre s post : jsstring) :
  forallb isWhiteSpace pre = true ->
  forallb isWhiteSpace post = true ->
  trim (pre ++ s ++ post) = trim s.
Proof.
  intros Hpre Hpost. unfold trim. rewrite trimStart_pad by done.
  destruct (trimStart s) as [|c r] eqn:E.
  - apply trimStart_nil_iff in E.
    assert (H : trimStart (s ++ post) = []).
    { apply trimStart_nil_iff. rewrite forallb_app, E, Hpost. done. }
    rewrite H. done.
  - rewrite trimStart_app by (rewrite E; done).
    rewrite E. by apply trimEnd_pad.
Qed.

Lemma filter_filter_comm {A : Type} (f g : A -> bool) (l : list A) :
  List.filter f (List.filter g l) = List.filter g (List.filter f l).
Proof.
  induction l as [|a l IH]; cbn; [done|].
  destruct (f a) eqn:F, (g a) eqn:G; cbn; rewrite ?F, ?G, IH; done.
Qed.

Lemma filter_idem {A : Type} (f : A -> bool) (l : list A) :
  List.filter f (List.filter f l) = List.filter f l.
Proof.
  induction l as [|a l IH]; cbn; [done|].
  destruct (f a) eqn:F; cbn; rewrite ?F, IH; done.
Qed.

Lemma filter_sublist {A : Type} (f : A -> bool) (l : list A) :
  sublist (List.filter f l) l.
Proof.
  induction l as [|a l IH]; cbn; [constructor|].
  destruct (f a); by constructor.
Qed.

(** ** ApprovalModal, further *)

(** X1. Each click empties the notes field, so a decision submitted next
    without typing carries no notes, whatever was written for the decision
    before it. *)
Theorem notes_do_not_carry_over (b1 b2 : ApprovalModal.Button)
    (notes : jsstring) :
  let cell := snd (ApprovalModal.click b1 notes) in
  cell = []
  /\ ApprovalModal.notes
       (ApprovalModal.decision_of (fst (ApprovalModal.click b2 cell)))
     = None.
Proof. destruct b1, b2; split; reflexivity. Qed.

(** X2. The "Files to Review" box is shown exactly for the approval types
    'plan' and 'chunk'; for every other value of [approvalType], a missing
    one included, the modal falls back to the generic title with no file
    listed. *)
Theorem files_box_shown (approvalType : value)
    (approvalData : option ApprovalModal.ApprovalData) :
  let info := ApprovalModal.getApprovalInfo approvalType approvalData in
  (ApprovalModal.showFiles info = true
   <-> approvalType = VStr (str "plan") \/ approvalType = VStr (str "chunk"))
  /\ (ApprovalModal.showFiles info = false ->
      ApprovalModal.title info = str "Approval Required"
      /\ ApprovalModal.icon info = ApprovalModal.AlertCircle
      /\ ApprovalModal.files info = []).
Proof.
  cbn zeta. unfold ApprovalModal.getApprovalInfo.
  destruct (strict_eq_str approvalType (str "plan")) eqn:P.
  { split; [|done]. split; [intros _; left | done].
    destruct approvalType; try done. cbn in P.
    apply bool_decide_eq_true in P. by rewrite P. }
  destruct (strict_eq_str approvalType (str "chunk")) eqn:C.
  { split; [|done]. split; [intros _; right | done].
    destruct approvalType; try done. cbn in C.
    apply bool_decide_eq_true in C. by rewrite C. }
  split; [|done]. split; [done|].
  intros [-> | ->]; [by vm_compute in P | by vm_compute in C].
Qed.

Lemma files_box_shown_witness :
  ApprovalModal.title
    (ApprovalModal.getApprovalInfo VUndefined None) = str "Approval Required".
Proof.
  destruct (files_box_shown VUndefined None) as [_ H].
  apply H. reflexivity.
Defined.

(** X3. A decision of the modal, posted by [submitApproval], goes to
    [/projects/<id>/approve] as JSON with [approved] always present and
    [notes] present exactly when the notes field held something other than
    white space, then with the trimmed text. *)
Theorem decision_on_the_wire (base projectId notes : jsstring)
    (b : ApprovalModal.Button) :
  let d := ApprovalModal.decision_of (fst (ApprovalModal.click b notes)) in
  let r := Api.submitApproval base projectId (ApprovalModal.decision_obj d) in
  Api.url r = base ++ str "/projects/" ++ projectId ++ str "/approve"
  /\ Api.req_method r = Some (str "POST")
  /\ Api.req_headers r !! "Content-Type" = Some (str "application/json")
  /\ exists body,
       Api.req_body r = Some body
       /\ body !! "approved"
          = Some (VBool match b with
                        | ApprovalModal.ApproveButton => true
                        | ApprovalModal.RejectButton => false
                        end)
       /\ body !! "notes"
          = (if forallb isWhiteSpace notes then None
             else Some (VStr (trim notes)))
       /\ (forall k : string, k <> "approved" -> k <> "notes" ->
           body !! k = None).
Proof.
  cbn zeta. split; [reflexivity|]. split; [reflexivity|].
  split; [reflexivity|].
  eexists. split; [reflexivity|].
  unfold JSON_stringify, ApprovalModal.decision_obj.
  assert (Hn : ApprovalModal.notes
                 (ApprovalModal.decision_of (ApprovalModal.click b notes).1)
               = if forallb isWhiteSpace notes then None
                 else Some (trim notes)).
  { destruct b; cbn; apply or_undefined_trim. }
  rewrite Hn. rewrite !lookup_omap.
  repeat (rewrite lookup_insert_eq || rewrite lookup_insert_ne by done).
  split; [by destruct b|].
  split; [by destruct (forallb isWhiteSpace notes)|].
  intros k H1 H2. rewrite lookup_omap.
  by rewrite !lookup_insert_ne, lookup_empty.
Qed.

(** ** ProgressDashboard, further *)

(** X4. When [phase] is the i-th of the four displayed phases, the tracker
    finds it at index i, draws exactly step i as active, the steps before it
    as completed and the steps after it as neither, and colours a connector
    green exactly when it follows a completed step; the last step has no
    connector. *)
Theorem phase_tracker_inside (i : nat) (p : ProgressDashboard.PhaseInfo) :
  ProgressDashboard.phases !! i = Some p ->
  ProgressDashboard.getCurrentPhaseIndex (VStr (ProgressDashboard.name p))
  = Z.of_nat i
  /\ forall (j : nat) (s : ProgressDashboard.Step),
       ProgressDashboard.renderPhaseSteps
         (VStr (ProgressDashboard.name p)) !! j = Some s ->
       ProgressDashboard.isActive s = bool_decide (j = i)
       /\ ProgressDashboard.isCompleted s = bool_decide (j < i)%nat
       /\ ProgressDashboard.connectorClass s
          = (if bool_decide (j < 3)%nat
             then Some (if bool_decide (j < i)%nat then str "bg-green-600"
                        else str "bg-gray-200")
             else None).
Proof.
  intros Hp.
  destruct i as [|[|[|[|i]]]]; try done; injection Hp as <-;
    (split; [reflexivity|]);
    intros j s Hs;
    destruct j as [|[|[|[|j]]]]; try done; injection Hs as <-;
    repeat split.
Qed.

Lemma phase_tracker_inside_witness :
  ProgressDashboard.getCurrentPhaseIndex (VStr (str "WRITING")) = 2.
Proof.
  exact (proj1 (phase_tracker_inside 2
                  {| ProgressDashboard.name := str "WRITING";
                     ProgressDashboard.label := str "Writing";
                     ProgressDashboard.icon := ProgressDashboard.Zap |}
                  eq_refl)).
Defined.

(** X5. The status header shows exactly one badge for every combination of
    [isGenerating] and [isPaused]: Paused whenever the run is paused, else
    Active while generating, else Idle. *)
Theorem one_status_badge (isGenerating isPaused : bool) :
  ProgressDashboard.statusBadges isGenerating isPaused
  = [ if isPaused then ProgressDashboard.Paused
      else if isGenerating then ProgressDashboard.Active
      else ProgressDashboard.Idle ].
Proof. by destruct isGenerating, isPaused. Qed.

Lemma Qltb_trans (a p q : Q) :
  Qltb a p = true -> Qltb p q = true -> Qltb a q = true.
Proof. rewrite !Qltb_lt. apply Qlt_trans. Qed.

(** X6. The colour of the usage bar never gets less alarming as usage
    grows: a larger percentage is drawn blue, yellow or red no lower in that
    order than a smaller one.  Yellow is the band above 75 up to and
    including 90; a percentage that is not a number is drawn blue. *)
Theorem bar_colour_monotone (a b : number) :
  (lt a b = true ->
   (ProgressDashboard.severity (ProgressDashboard.tokenBarColor a)
    <= ProgressDashboard.severity (ProgressDashboard.tokenBarColor b))%nat)
  /\ (ProgressDashboard.tokenBarColor a = ProgressDashboard.bg_yellow_600
      <-> gt a (Fin 75) = true /\ gt a (Fin 90) = false)
  /\ ProgressDashboard.tokenBarColor NaN = ProgressDashboard.bg_blue_600.
Proof.
  split; [|split; [|reflexivity]].
  - unfold ProgressDashboard.tokenBarColor, gt.
    destruct a as [| | p |], b as [| | q |]; cbn; try done;
      try (intros; lia).
    + intros H.
      destruct (Qltb 90 p) eqn:E1.
      { rewrite (Qltb_trans _ _ _ E1 H). done. }
      destruct (Qltb 75 p) eqn:E2.
      { rewrite (Qltb_trans _ _ _ E2 H). destruct (Qltb 90 q); cbn; lia. }
      cbn. lia.
    + intros _. destruct (Qltb 90 p), (Qltb 75 p); cbn; lia.
  - unfold ProgressDashboard.tokenBarColor.
    destruct (gt a (Fin 90)), (gt a (Fin 75)); split; try done;
      intros [? ?]; done.
Qed.

Lemma bar_colour_monotone_witness :
  (ProgressDashboard.severity (ProgressDashboard.tokenBarColor (Fin 80))
   <= ProgressDashboard.severity (ProgressDashboard.tokenBarColor (Fin 95)))%nat.
Proof.
  apply (proj1 (bar_colour_monotone (Fin 80) (Fin 95))). reflexivity.
Defined.

(** ** ProjectBrowser, further *)

Lemma truthy_string_false (s : jsstring) : truthy_string s = false <-> s = [].
Proof. by destruct s. Qed.

Lemma filterProjects_idem (toLowerCase : jsstring -> jsstring)
    (st : ProjectBrowser.State) :
  ProjectBrowser.filterProjects toLowerCase
    (ProjectBrowser.filterProjects toLowerCase st)
  = ProjectBrowser.filterProjects toLowerCase st.
Proof. reflexivity. Qed.

Lemma filterProjects_In (toLowerCase : jsstring -> jsstring)
    (st : ProjectBrowser.State) (p : ProjectBrowser.Project) :
  In p (ProjectBrowser.filteredProjects
          (ProjectBrowser.filterProjects toLowerCase st)) <->
  In p (ProjectBrowser.projects st)
  /\ (ProjectBrowser.searchQuery st = []
      \/ ProjectBrowser.matchesQuery toLowerCase
           (ProjectBrowser.searchQuery st) p = true)
  /\ (ProjectBrowser.filterPhase st = str "all"
      \/ ProjectBrowser.phase p = ProjectBrowser.filterPhase st).
Proof.
  unfold ProjectBrowser.filterProjects.
  cbn [ProjectBrowser.filteredProjects].
  destruct (ProjectBrowser.searchQuery st) as [|c q] eqn:Q;
    cbn [truthy_string];
    destruct (bool_decide (ProjectBrowser.filterPhase st = str "all")) eqn:F;
    cbn [negb];
    try (apply bool_decide_eq_true in F);
    try (apply bool_decide_eq_false in F);
    rewrite ?filter_In, ?bool_decide_eq_true; intuition congruence.
Qed.

Lemma filterProjects_sublist (toLowerCase : jsstring -> jsstring)
    (st : ProjectBrowser.State) :
  sublist (ProjectBrowser.filteredProjects
             (ProjectBrowser.filterProjects toLowerCase st))
    (ProjectBrowser.projects st).
Proof.
  unfold ProjectBrowser.filterProjects.
  cbn [ProjectBrowser.filteredProjects].
  destruct (truthy_string _), (negb _);
    repeat (etrans; [apply filter_sublist|]); done.
Qed.

Lemma displayed_projects_all (toLowerCase : jsstring -> jsstring)
    (st : ProjectBrowser.State) :
  ProjectBrowser.filteredProjects
    (ProjectBrowser.filterProjects toLowerCase st)
  = ProjectBrowser.projects st
  \/ ProjectBrowser.searchQuery st <> []
  \/ ProjectBrowser.filterPhase st <> str "all".
Proof.
  unfold ProjectBrowser.filterProjects.
  cbn [ProjectBrowser.filteredProjects].
  destruct (ProjectBrowser.searchQuery st) as [|c q];
    [|right; left; done].
  cbn [truthy_string].
  destruct (bool_decide (ProjectBrowser.filterPhase st = str "all")) eqn:F.
  - left. done.
  - right. right. by apply bool_decide_eq_false in F.
Qed.

(** X7. The displayed list holds exactly the projects that pass both
    filters, in the order of the project list: a project is displayed if and
    only if it is in the list, the search box is empty or its lower-cased
    text occurs in the lower-cased name or theme, and the phase filter is
    'all' or equals the project's phase.  With both filters off every
    project is displayed. *)
Theorem displayed_projects (toLowerCase : jsstring -> jsstring)
    (st : ProjectBrowser.State) :
  let st' := ProjectBrowser.filterProjects toLowerCase st in
  (forall p,
     In p (ProjectBrowser.filteredProjects st') <->
     In p (ProjectBrowser.projects st)
     /\ (ProjectBrowser.searchQuery st = []
         \/ ProjectBrowser.matchesQuery toLowerCase
              (ProjectBrowser.searchQuery st) p = true)
     /\ (ProjectBrowser.filterPhase st = str "all"
         \/ ProjectBrowser.phase p = ProjectBrowser.filterPhase st))
  /\ sublist (ProjectBrowser.filteredProjects st') (ProjectBrowser.projects st)
  /\ (ProjectBrowser.searchQuery st = [] ->
      ProjectBrowser.filterPhase st = str "all" ->
      ProjectBrowser.filteredProjects st' = ProjectBrowser.projects st)
  /\ ProjectBrowser.projects st' = ProjectBrowser.projects st
  /\ ProjectBrowser.deleteConfirm st' = ProjectBrowser.deleteConfirm st.
Proof.
  cbn zeta.
  split; [apply filterProjects_In|].
  split; [apply filterProjects_sublist|].
  split; [|done].
  intros E1 E2.
  destruct (displayed_projects_all toLowerCase st) as [H|[H|H]]; done.
Qed.

Lemma displayed_projects_witness :
  ProjectBrowser.filteredProjects
    (ProjectBrowser.filterProjects (fun s => s)
       {| ProjectBrowser.projects :=
            [ {| ProjectBrowser.project_id := str "novel_1";
                 ProjectBrowser.project_name := str "Fog";
                 ProjectBrowser.theme := str "A detective";
                 ProjectBrowser.phase := str "WRITING" |} ];
          ProjectBrowser.filteredProjects := [];
          ProjectBrowser.searchQuery := str "";
          ProjectBrowser.filterPhase := str "all";
          ProjectBrowser.deleteConfirm := None |})
  = [ {| ProjectBrowser.project_id := str "novel_1";
         ProjectBrowser.project_name := str "Fog";
         ProjectBrowser.theme := str "A detective";
         ProjectBrowser.phase := str "WRITING" |} ].
Proof.
  apply (displayed_projects (fun s => s)); reflexivity.
Defined.

(** X8. A successful delete takes the project out of the displayed list and
    changes nothing else in it: the new displayed list is the old one,
    filtered as before, without the entries of that id. *)
Theorem delete_commutes_with_filters (toLowerCase : jsstring -> jsstring)
    (projectId : jsstring) (st : ProjectBrowser.State) :
  ProjectBrowser.filteredProjects
    (fst (ProjectBrowser.handleDelete toLowerCase projectId
            ProjectBrowser.Resolved st))
  = List.filter
      (fun p => negb (bool_decide (ProjectBrowser.project_id p = projectId)))
      (ProjectBrowser.filteredProjects
         (ProjectBrowser.filterProjects toLowerCase st)).
Proof.
  cbn [ProjectBrowser.handleDelete fst].
  unfold ProjectBrowser.filterProjects.
  cbn [ProjectBrowser.filteredProjects ProjectBrowser.projects
       ProjectBrowser.searchQuery ProjectBrowser.filterPhase].
  destruct (truthy_string (ProjectBrowser.searchQuery st)),
    (negb (bool_decide (ProjectBrowser.filterPhase st = str "all")));
    try done.
  - rewrite (filter_filter_comm (ProjectBrowser.matchesQuery _ _)).
    apply filter_filter_comm.
  - apply filter_filter_comm.
  - apply filter_filter_comm.
Qed.

(** X9. Confirming the same delete twice is the same as confirming it once,
    and a successful delete of an id that no project has leaves the project
    list as it was and only closes the dialog. *)
Theorem delete_idempotent (toLowerCase : jsstring -> jsstring)
    (projectId : jsstring) (st : ProjectBrowser.State) :
  let once := fst (ProjectBrowser.handleDelete toLowerCase projectId
                     ProjectBrowser.Resolved st) in
  fst (ProjectBrowser.handleDelete toLowerCase projectId
         ProjectBrowser.Resolved once) = once
  /\ (Forall (fun p => ProjectBrowser.project_id p <> projectId)
        (ProjectBrowser.projects st) ->
      ProjectBrowser.projects once = ProjectBrowser.projects st).
Proof.
  cbn zeta. split.
  - cbn [ProjectBrowser.handleDelete fst].
    unfold ProjectBrowser.filterProjects.
    cbn [ProjectBrowser.filteredProjects ProjectBrowser.projects
         ProjectBrowser.searchQuery ProjectBrowser.filterPhase
         ProjectBrowser.deleteConfirm].
    rewrite filter_idem. reflexivity.
  - cbn [ProjectBrowser.handleDelete fst ProjectBrowser.filterProjects
         ProjectBrowser.projects].
    induction 1 as [|p l Hp _ IH]; cbn [List.filter]; [done|].
    rewrite bool_decide_eq_false_2 by done. cbn [negb]. by rewrite IH.
Qed.

Lemma delete_idempotent_witness :
  ProjectBrowser.projects
    (fst (ProjectBrowser.handleDelete (fun s => s) (str "novel_2")
            ProjectBrowser.Resolved
            {| ProjectBrowser.projects :=
                 [ {| ProjectBrowser.project_id := str "novel_1";
                      ProjectBrowser.project_name := str "Fog";
                      ProjectBrowser.theme := str "A detective";
                      ProjectBrowser.phase := str "WRITING" |} ];
               ProjectBrowser.filteredProjects := [];
               ProjectBrowser.searchQuery := str "";
               ProjectBrowser.filterPhase := str "all";
               ProjectBrowser.deleteConfirm := Some (str "novel_2") |}))
  = [ {| ProjectBrowser.project_id := str "novel_1";
         ProjectBrowser.project_name := str "Fog";
         ProjectBrowser.theme := str "A detective";
         ProjectBrowser.phase := str "WRITING" |} ].
Proof.
  apply (delete_idempotent (fun s => s) (str "novel_2")).
  repeat constructor. discriminate.
Defined.

(** X10. However the list request settles, [loadProjects] ends with the
    loading flag off, having switched it on first.  A failed load is logged
    and leaves every other cell as it was; a successful one installs the
    received projects, or the empty list when the response has none, and the
    displayed list is the filtered view of exactly those. *)
Theorem load_projects_settles (toLowerCase : jsstring -> jsstring)
    (listed : ProjectBrowser.Listed) (pg : ProjectBrowser.Page) :
  let pg' := fst (ProjectBrowser.loadProjects toLowerCase listed pg) in
  let logs := snd (ProjectBrowser.loadProjects toLowerCase listed pg) in
  ProjectBrowser.loading (ProjectBrowser.loadProjects_start pg) = true
  /\ ProjectBrowser.loading pg' = false
  /\ ProjectBrowser.viewMode pg' = ProjectBrowser.viewMode pg
  /\ match listed with
     | ProjectBrowser.ListRejected error =>
         ProjectBrowser.cells pg' = ProjectBrowser.cells pg
         /\ logs = [ProjectBrowser.console_error
                      (str "Failed to load projects:") error]
     | ProjectBrowser.ListResolved received =>
         ProjectBrowser.projects (ProjectBrowser.cells pg')
         = default [] received
         /\ ProjectBrowser.filterProjects toLowerCase
              (ProjectBrowser.cells pg') = ProjectBrowser.cells pg'
         /\ ProjectBrowser.searchQuery (ProjectBrowser.cells pg')
            = ProjectBrowser.searchQuery (ProjectBrowser.cells pg)
         /\ ProjectBrowser.filterPhase (ProjectBrowser.cells pg')
            = ProjectBrowser.filterPhase (ProjectBrowser.cells pg)
         /\ ProjectBrowser.deleteConfirm (ProjectBrowser.cells pg')
            = ProjectBrowser.deleteConfirm (ProjectBrowser.cells pg)
         /\ logs = []
     end.
Proof.
  cbn zeta. split; [reflexivity|].
  destruct listed as [received|error]; cbn; repeat split.
Qed.

(** X11. When the page has projects and still shows the empty state, a
    filter is on: with the displayed list in step with the cells, the
    headline 'No matching projects' only appears while the search box is not
    empty or the phase filter is not 'all'; and the headline 'No projects
    yet', with the Create Project button, appears only when the project list
    itself is empty. *)
Theorem empty_state_headline (toLowerCase : jsstring -> jsstring)
    (pg : ProjectBrowser.Page) (headline hint : jsstring) (button : bool) :
  ProjectBrowser.filterProjects toLowerCase (ProjectBrowser.cells pg)
  = ProjectBrowser.cells pg ->
  ProjectBrowser.mainView pg = ProjectBrowser.EmptyView headline hint button ->
  (headline = str "No matching projects"
   /\ button = false
   /\ ProjectBrowser.projects (ProjectBrowser.cells pg) <> []
   /\ (ProjectBrowser.searchQuery (ProjectBrowser.cells pg) <> []
       \/ ProjectBrowser.filterPhase (ProjectBrowser.cells pg) <> str "all"))
  \/ (headline = str "No projects yet"
      /\ button = true
      /\ ProjectBrowser.projects (ProjectBrowser.cells pg) = []).
Proof.
  intros Hsync. unfold ProjectBrowser.mainView.
  destruct (ProjectBrowser.loading pg); [done|].
  destruct (ProjectBrowser.filteredProjects (ProjectBrowser.cells pg))
    as [|p l] eqn:Hf; cbn [length Z.of_nat Z.eqb];
    [|by destruct (bool_decide _)].
  destruct (ProjectBrowser.projects (ProjectBrowser.cells pg))
    as [|q l] eqn:Hp; cbn [length Z.of_nat Z.eqb].
  - intros [= <- <- <-]. right. done.
  - intros [= <- <- <-]. left. repeat split; try done.
    destruct (displayed_projects_all toLowerCase (ProjectBrowser.cells pg))
      as [H|H]; [|exact H].
    rewrite Hsync, Hf, Hp in H. done.
Qed.

Lemma empty_state_headline_witness :
  ProjectBrowser.searchQuery
    {| ProjectBrowser.projects :=
         [ {| ProjectBrowser.project_id := str "novel_1";
              ProjectBrowser.project_name := str "Fog";
              ProjectBrowser.theme := str "A detective";
              ProjectBrowser.phase := str "WRITING" |} ];
       ProjectBrowser.filteredProjects := [];
       ProjectBrowser.searchQuery := str "zeppelin";
       ProjectBrowser.filterPhase := str "all";
       ProjectBrowser.deleteConfirm := None |} <> []
  \/ str "all" <> str "all".
Proof.
  destruct (empty_state_headline (fun s => s)
              {| ProjectBrowser.cells :=
                   {| ProjectBrowser.projects :=
                        [ {| ProjectBrowser.project_id := str "novel_1";
                             ProjectBrowser.project_name := str "Fog";
                             ProjectBrowser.theme := str "A detective";
                             ProjectBrowser.phase := str "WRITING" |} ];
                      ProjectBrowser.filteredProjects := [];
                      ProjectBrowser.searchQuery := str "zeppelin";
                      ProjectBrowser.filterPhase := str "all";
                      ProjectBrowser.deleteConfirm := None |};
                 ProjectBrowser.loading := false;
                 ProjectBrowser.viewMode := str "grid" |}
              (str "No matching projects")
              (str "Try adjusting your filters") false
              eq_refl eq_refl) as [(_ & _ & _ & H) | (H & _)].
  - exact H.
  - discriminate H.
Defined.

(** ** REST client *)

(** X12. Every request of the client carries the JSON content type unless
    the caller passes headers of its own: a [headers] property of [options]
    is sent as it is, in place of the merged headers, so the default content
    type is then sent only if the caller's headers name it.  The calls of
    the pages pass no headers and all carry it. *)
Theorem request_headers (base endpoint projectId : jsstring)
    (options : Api.Options) (config : obj) :
  Api.req_headers (Api.request base endpoint options) !! "Content-Type"
  = match Api.headers options with
    | None => Some (str "application/json")
    | Some h => h !! "Content-Type"
    end
  /\ (forall k : string, k <> "Content-Type" ->
      Api.req_headers (Api.request base endpoint options) !! k
      = Api.headers options ≫= (.!! k))
  /\ Forall (fun r => Api.req_headers r !! "Content-Type"
                      = Some (str "application/json"))
       [ Api.createProject base config; Api.listProjects base;
         Api.getProject base projectId; Api.deleteProject base projectId;
         Api.getProjectState base projectId;
         Api.submitApproval base projectId config ].
Proof.
  split; [|split].
  - unfold Api.request. cbn [Api.req_headers].
    destruct (Api.headers options); [done|]. apply lookup_singleton_eq.
  - intros k Hk. unfold Api.request. cbn [Api.req_headers].
    destruct (Api.headers options); cbn; [done|].
    by apply lookup_singleton_ne.
  - repeat constructor.
Qed.

(** X13. [apiFetch] resolves exactly when the response is ok and its body
    parses, and then logs nothing; in every other case (no response, a body
    that does not parse, a status that is not ok) it rejects and logs exactly
    one line, which names the endpoint and carries the message it rejects
    with. *)
Theorem api_fetch_outcome (A : Type) (endpoint : jsstring)
    (fetched : Api.Fetched A) :
  let settled := fst (Api.apiFetch endpoint fetched) in
  let logs := snd (Api.apiFetch endpoint fetched) in
  (forall v, settled = Api.resolved v <-> fetched = Api.http_ok (inr v))
  /\ match settled with
     | Api.resolved _ => logs = []
     | Api.rejected m =>
         logs = [Api.console_error
                   (str "API Error [" ++ endpoint ++ str "]:") m]
     end.
Proof.
  destruct fetched as [m | [m | v] | status d]; cbn; split; try done;
    intros v'; split; try done; congruence.
Qed.

(** X14. The message of a request that failed with a status that is not ok
    and a body that is an object, or does not parse, is made of the first
    truthy one of the body's [error] and [detail], in
    that order, as [new Error] turns it into a string: a string as it is, an
    array as its elements joined by commas with each object among them as
    "[object Object]".  When neither is truthy (missing, [null], [false],
    0, the empty string) or the body does not parse, the message is "HTTP"
    and the status. *)
Theorem error_message_precedence (status : SafeNat) (e d : option Json) :
  let m := Api.error_message status
             (Some {| Api.error := e; Api.detail := d |}) in
  let unset (x : option Json) :=
    x = None \/ exists j, x = Some j /\ truthy_json j = false in
  (forall j, e = Some j -> truthy_json j = true -> m = ToString j)
  /\ (forall j, unset e -> d = Some j -> truthy_json j = true ->
      m = ToString j)
  /\ (unset e -> unset d -> m = str "HTTP " ++ decimal (safe_value status))
  /\ Api.error_message status None
     = str "HTTP " ++ decimal (safe_value status)
  /\ (forall s, ToString (JString s) = s)
  /\ (forall items,
        ToString (JArray (JObject :: items))
        = str "[object Object]"
          ++ match items with
             | [] => []
             | _ => str "," ++ ToString (JArray items)
             end).
Proof.
  cbn zeta. unfold Api.error_message, Api.json_or_else.
  cbn [Api.error Api.detail].
  assert (U : forall (x : option Json) (a : Json -> jsstring) (b : jsstring),
            (x = None \/ exists j, x = Some j /\ truthy_json j = false) ->
            match x with
            | Some j => if truthy_json j then a j else b
            | None => b
            end = b).
  { intros x a b [-> | (j & -> & Hj)]; [done | by rewrite Hj]. }
  split; [by intros j -> ->|].
  split; [intros j He -> Hd; rewrite (U e) by done; by rewrite Hd|].
  split; [intros He Hd; by rewrite (U e), (U d) by done|].
  split; [reflexivity|]. split; [reflexivity|].
  intros [|x items]; [reflexivity|]. reflexivity.
Qed.

(** A validation error of the backend's framework: [detail] is an array of
    objects. *)
Lemma error_message_precedence_witness :
  Api.error_message {| safe_value := 422; safe_bound := eq_refl |}
    (Some {| Api.error := None;
             Api.detail := Some (JArray [JObject; JObject]) |})
  = str "[object Object],[object Object]".
Proof.
  destruct (error_message_precedence
              {| safe_value := 422; safe_bound := eq_refl |}
              None (Some (JArray [JObject; JObject])))
    as (_ & H & _).
  apply (H (JArray [JObject; JObject])); [by left | reflexivity | reflexivity].
Defined.

Lemma replace_skip (c : N) (s pat rep : jsstring) :
  startsWith (c :: s) pat = false ->
  replace (c :: s) pat rep = c :: replace s pat rep.
Proof. intros H. cbn [replace]. by rewrite H. Qed.

Lemma replace_here (pat rep post : jsstring) :
  replace (pat ++ post) pat rep = rep ++ post.
Proof.
  assert (U : forall s, replace s pat rep
              = if startsWith s pat then rep ++ drop (length pat) s
                else match s with
                     | [] => []
                     | c :: s' => c :: replace s' pat rep
                     end) by (by intros []).
  rewrite U.
  assert (H : startsWith (pat ++ post) pat = true)
    by (apply startsWith_iff; by exists post).
  rewrite H. by rewrite drop_app_length.
Qed.

Lemma startsWith_take (s t : jsstring) :
  startsWith s t = bool_decide (take (length t) s = t).
Proof.
  destruct (startsWith s t) eqn:E; symmetry.
  - apply bool_decide_eq_true. apply startsWith_iff in E as [post ->].
    by rewrite take_app_length.
  - apply bool_decide_eq_false. intros H.
    assert (startsWith s t = true); [|congruence].
    apply startsWith_iff. exists (drop (length t) s).
    rewrite <- H at 1. by rewrite take_drop.
Qed.

Lemma startsWith_api_suffix (x : jsstring) (c : N) :
  startsWith (c :: x ++ str "/ap") (str "/api") = false ->
  startsWith (c :: x ++ str "/api") (str "/api") = false.
Proof.
  rewrite !startsWith_take.
  assert (E : take (length (str "/api")) (c :: x ++ str "/api")
              = take (length (str "/api")) (c :: x ++ str "/ap")).
  { replace (c :: x ++ str "/api")
      with (((c :: x) ++ str "/ap") ++ str "i")
      by (rewrite <- app_assoc; reflexivity).
    apply take_app_le. change (length (str "/api")) with 4%nat.
    change ((c :: x) ++ str "/ap") with (c :: (x ++ str "/ap")).
    cbn [length]. rewrite length_app.
    change (length (str "/ap")) with 3%nat. lia. }
  by rewrite E.
Qed.

(** X15. [healthCheck] swaps the first "/api" of the base URL for "/health".
    When the base URL ends in "/api" and has no earlier occurrence of it,
    as the default http://localhost:8000/api, the health URL is the origin
    followed by "/health". *)
Theorem health_url_of_api_suffix (origin : jsstring) :
  includes (origin ++ str "/ap") (str "/api") = false ->
  Api.healthCheck_url (origin ++ str "/api") = origin ++ str "/health".
Proof.
  unfold Api.healthCheck_url.
  induction origin as [|c o IH]; [reflexivity|].
  intros H. cbn [includes app] in H. apply orb_false_iff in H as [H1 H2].
  cbn [app]. rewrite replace_skip by (by apply startsWith_api_suffix).
  by rewrite IH.
Qed.

Lemma health_url_of_api_suffix_witness :
  Api.healthCheck_url (Api.API_BASE_URL None)
  = str "http://localhost:8000/health".
Proof.
  exact (health_url_of_api_suffix (str "http://localhost:8000") eq_refl).
Defined.

Ltac unfold_prefix :=
  match goal with
  | |- context [replace (str ?p ++ _)] =>
      let l := eval vm_compute in (str p) in change (str p) with l
  end.

(** X16. The first "/api" of a base URL need not be its path: for every
    base URL whose host begins with "api", [healthCheck] rewrites the host
    instead and leaves the path alone. *)
Theorem health_url_of_api_host (rest : jsstring) :
  Api.healthCheck_url (str "http://api" ++ rest) = str "http://health" ++ rest
  /\ Api.healthCheck_url (str "https://api" ++ rest)
     = str "https://health" ++ rest.
Proof.
  unfold Api.healthCheck_url. split.
  - change (str "http://api" ++ rest)
      with (str "http:/" ++ (str "/api" ++ rest)).
    unfold_prefix; cbn [app].
    rewrite !replace_skip by reflexivity.
    by rewrite (replace_here (str "/api")).
  - change (str "https://api" ++ rest)
      with (str "https:/" ++ (str "/api" ++ rest)).
    unfold_prefix; cbn [app].
    rewrite !replace_skip by reflexivity.
    by rewrite (replace_here (str "/api")).
Qed.

(** ** Home, further *)

(** The lookups of the posted body, property by property, once the quality
    settings are known to hold the two caps and nothing else. *)
Ltac home_body_lookup Hq :=
  let np := fresh "np" in
  let nw := fresh "nw" in
  let Hnp := fresh "Hnp" in
  let Hnw := fresh "Hnw" in
  let Ho := fresh "Ho" in
  destruct (quality_reachable_inv _ Hq) as ([np Hnp] & [nw Hnw] & Ho);
  unfold JSON_stringify, Home.config_of;
  rewrite ?lookup_omap;
  rewrite ?(lookup_union_l' _ _ "max_plan_critique_iterations")
    by (by eexists);
  rewrite ?(lookup_union_l' _ _ "max_write_critique_iterations")
    by (by eexists);
  rewrite ?Hnp, ?Hnw;
  rewrite ?lookup_union_r by (by apply Ho);
  repeat (rewrite lookup_insert_eq || rewrite lookup_insert_ne by done);
  rewrite ?lookup_empty; cbn [mbind option_bind].

Lemma find_first {A : Type} (p : A -> bool) (before after : list A) (x : A) :
  Forall (fun a => p a = false) before ->
  p x = true ->
  find p (before ++ x :: after) = Some x.
Proof.
  induction 1 as [|a l Ha _ IH]; intros Hx; cbn [find app].
  - by rewrite Hx.
  - rewrite Ha. by apply IH.
Qed.

(** X17. The Begin Writing button and its handler agree: for a premise of
    nothing but white space the button is disabled, and the handler, were it
    called, would only report the missing premise; for any other premise the
    handler posts a request, and the button is disabled only while a request
    is under way. *)
Theorem create_needs_premise (loading : bool) (st : Home.State) :
  if forallb isWhiteSpace (Home.premise st)
  then Home.handleCreateProject st
       = Home.setError (str "Please enter a premise for your novel")
       /\ Home.createDisabled loading st = true
  else (exists body, Home.handleCreateProject st = Home.createProject body)
       /\ Home.createDisabled loading st = loading.
Proof.
  unfold Home.handleCreateProject, Home.createDisabled.
  rewrite truthy_trim.
  destruct (forallb isWhiteSpace (Home.premise st)); cbn [negb].
  - split; [reflexivity | apply orb_true_r].
  - split; [by eexists | apply orb_false_r].
Qed.

(** X18. Of the style cards the first one, in order, whose sample is not
    blank is the one whose sample is posted, and it is posted as typed,
    untrimmed; the cards after it are ignored. *)
Theorem first_style_card_wins (st : Home.State)
    (before after : list Home.StyleCard) (card : Home.StyleCard)
    (s : jsstring) :
  Home.styleCards st = before ++ card :: after ->
  Forall (fun c => Home.has_sample c = false) before ->
  Home.sample card = Some s ->
  forallb isWhiteSpace s = false ->
  Home.quality_reachable (Home.qualityConfig st) ->
  trim (Home.premise st) <> [] ->
  exists body,
    Home.handleCreateProject st = Home.createProject body
    /\ body !! "custom_writing_sample" = Some (VStr s).
Proof.
  intros Hcards Hbefore Hs Hblank Hq Hp.
  exists (JSON_stringify (Home.config_of st)). split.
  { unfold Home.handleCreateProject.
    destruct (trim (Home.premise st)); [done|reflexivity]. }
  home_body_lookup Hq.
  rewrite Hcards, (find_first _ before after card); [| done |].
  - rewrite Hs. destruct s as [|c s]; [done|reflexivity].
  - unfold Home.has_sample. rewrite Hs, truthy_trim, Hblank. done.
Qed.

Lemma first_style_card_wins_witness :
  exists body,
    Home.handleCreateProject Home.filledState = Home.createProject body
    /\ body !! "custom_writing_sample"
       = Some (VStr (str "To Sherlock Holmes she is always the woman.")).
Proof.
  apply (first_style_card_wins Home.filledState
           [ {| Home.name := str ""; Home.sample := Some (str "") |} ]
           [ {| Home.name := str ""; Home.sample := Some (str "") |} ]
           {| Home.name := str "Doyle";
              Home.sample :=
                Some (str "To Sherlock Holmes she is always the woman.") |});
    try reflexivity.
  - repeat constructor.
  - apply Home.quality_initial.
  - vm_compute. discriminate.
Defined.

(** X19. White space typed around the premise, the title or the genre never
    reaches the backend: padding any of the three with white space on either
    side leaves the handler's outcome, and so the posted request, exactly as
    it was. *)
Theorem padding_is_not_posted (st : Home.State)
    (p1 p2 t1 t2 g1 g2 : jsstring) :
  forallb isWhiteSpace p1 = true -> forallb isWhiteSpace p2 = true ->
  forallb isWhiteSpace t1 = true -> forallb isWhiteSpace t2 = true ->
  forallb isWhiteSpace g1 = true -> forallb isWhiteSpace g2 = true ->
  Home.handleCreateProject
    {| Home.premise := p1 ++ Home.premise st ++ p2;
       Home.title := t1 ++ Home.title st ++ t2;
       Home.genre := g1 ++ Home.genre st ++ g2;
       Home.length := Home.length st;
       Home.styleCards := Home.styleCards st;
       Home.requirePlanApproval := Home.requirePlanApproval st;
       Home.requireChunkApproval := Home.requireChunkApproval st;
       Home.qualityConfig := Home.qualityConfig st |}
  = Home.handleCreateProject st.
Proof.
  intros Hp1 Hp2 Ht1 Ht2 Hg1 Hg2.
  unfold Home.handleCreateProject, Home.config_of.
  cbn [Home.premise Home.title Home.genre Home.length Home.styleCards
       Home.requirePlanApproval Home.requireChunkApproval
       Home.qualityConfig].
  rewrite !trim_pad by done. reflexivity.
Qed.

Lemma padding_is_not_posted_witness :
  Home.handleCreateProject
    {| Home.premise := str "  " ++ Home.premise Home.filledState ++ [10%N];
       Home.title := str " " ++ Home.title Home.filledState ++ str " ";
       Home.genre := [] ++ Home.genre Home.filledState ++ [9%N];
       Home.length := Home.length Home.filledState;
       Home.styleCards := Home.styleCards Home.filledState;
       Home.requirePlanApproval := Home.requirePlanApproval Home.filledState;
       Home.requireChunkApproval := Home.requireChunkApproval Home.filledState;
       Home.qualityConfig := Home.qualityConfig Home.filledState |}
  = Home.handleCreateProject Home.filledState.
Proof.
  apply (padding_is_not_posted Home.filledState); reflexivity.
Defined.

(** X20. The Home page posts the critique caps as the quality menu last
    left them, unchecked: after an edit of the plan cap the request carries
    the parsed number, or [null] when the input did not parse to a finite
    number (an emptied input), and the other cap as it was before. *)
Theorem cap_posted_unchecked (st : Home.State) (parsed : number) :
  Home.quality_reachable (Home.qualityConfig st) ->
  let st' :=
    {| Home.premise := Home.premise st;
       Home.title := Home.title st;
       Home.genre := Home.genre st;
       Home.length := Home.length st;
       Home.styleCards := Home.styleCards st;
       Home.requirePlanApproval := Home.requirePlanApproval st;
       Home.requireChunkApproval := Home.requireChunkApproval st;
       Home.qualityConfig :=
         Home.handleChange (Home.qualityConfig st)
           "max_plan_critique_iterations" (VNum parsed) |} in
  JSON_stringify (Home.config_of st') !! "max_plan_critique_iterations"
  = Some match parsed with
         | Fin q => VNum (Fin q)
         | _ => VNull
         end
  /\ JSON_stringify (Home.config_of st') !! "max_write_critique_iterations"
     = JSON_stringify (Home.config_of st) !! "max_write_critique_iterations".
Proof.
  intros Hq st'.
  assert (Hq' : Home.quality_reachable (Home.qualityConfig st'))
    by (by apply Home.quality_plan).
  destruct (quality_reachable_inv _ Hq) as (_ & [nw Hnw] & _).
  unfold JSON_stringify, Home.config_of. rewrite !lookup_omap.
  cbn [Home.qualityConfig st'].
  unfold Home.handleChange.
  rewrite !(lookup_union_l' _ _ "max_plan_critique_iterations")
    by (rewrite lookup_insert_eq; by eexists).
  rewrite (lookup_union_l' (<[_:=_]> _) _ "max_write_critique_iterations")
    by (rewrite lookup_insert_ne by done; by eexists).
  rewrite (lookup_union_l' (Home.qualityConfig st) _
             "max_write_critique_iterations") by (by eexists).
  rewrite lookup_insert_eq, lookup_insert_ne by done.
  split; [by destruct parsed | done].
Qed.

Lemma cap_posted_unchecked_witness :
  JSON_stringify
    (Home.config_of
       {| Home.premise := Home.premise Home.filledState;
          Home.title := Home.title Home.filledState;
          Home.genre := Home.genre Home.filledState;
          Home.length := Home.length Home.filledState;
          Home.styleCards := Home.styleCards Home.filledState;
          Home.requirePlanApproval :=
            Home.requirePlanApproval Home.filledState;
          Home.requireChunkApproval :=
            Home.requireChunkApproval Home.filledState;
          Home.qualityConfig :=
            Home.handleChange (Home.qualityConfig Home.filledState)
              "max_plan_critique_iterations" (VNum NaN) |})
    !! "max_plan_critique_iterations" = Some VNull.
Proof.
  exact (proj1 (cap_posted_unchecked Home.filledState NaN
                  Home.quality_initial)).
Defined.

(** X21. One run of [handleCreateProject]: with a blank premise it only
    reports the error.  Otherwise it switches loading on, sends the one POST
    to /config, and ends by switching loading off however the request went;
    it navigates, to the workspace of the returned id, exactly when the
    request resolved, and otherwise shows the message the request failed
    with. *)
Theorem create_flow_outcome (base : jsstring) (st : Home.State)
    (fetched : Api.Fetched Home.Created) :
  let effects := Home.createFlow base st fetched in
  if forallb isWhiteSpace (Home.premise st)
  then effects
       = [Home.SetError (str "Please enter a premise for your novel")]
  else exists middle,
         effects
         = [Home.SetLoading true;
            Home.Fetch (Api.createProject base (Home.config_of st))]
           ++ middle ++ [Home.SetLoading false]
         /\ match Api.apiFetch (str "/config") fetched with
            | (Api.resolved result, _) =>
                middle = [Home.Navigate
                            (str "/workspace/"
                             ++ template_of (Home.project_id result))]
            | (Api.rejected message, _) =>
                middle
                = [Home.Log (Api.console_error (str "API Error [/config]:")
                               message);
                   Home.SetError message]
            end.
Proof.
  cbn zeta. unfold Home.createFlow. rewrite truthy_trim.
  destruct (forallb isWhiteSpace (Home.premise st)); cbn [negb];
    [reflexivity|].
  eexists. split; [reflexivity|].
  destruct fetched as [m | [m | v] | status d]; reflexivity.
Qed.

(** X22. The "Kimi's Choice" hints are on the safe side: whenever the hint
    is shown under the title (or genre) input, the posted request leaves the
    project name (or genre) out; a title of white space only hides the hint
    and is left out all the same. *)
Theorem hint_means_left_out (st : Home.State) :
  Home.quality_reachable (Home.qualityConfig st) ->
  (Home.titleHint st = true ->
   JSON_stringify (Home.config_of st) !! "project_name" = None)
  /\ (Home.genreHint st = true ->
      JSON_stringify (Home.config_of st) !! "genre" = None)
  /\ (forallb isWhiteSpace (Home.title st) = true ->
      JSON_stringify (Home.config_of st) !! "project_name" = None)
  /\ (forallb isWhiteSpace (Home.genre st) = true ->
      JSON_stringify (Home.config_of st) !! "genre" = None).
Proof.
  intros Hq. unfold Home.titleHint, Home.genreHint.
  assert (Ht : JSON_stringify (Home.config_of st) !! "project_name"
               = if forallb isWhiteSpace (Home.title st) then None
                 else Some (VStr (trim (Home.title st)))).
  { home_body_lookup Hq. apply str_or_undefined_trim. }
  assert (Hg : JSON_stringify (Home.config_of st) !! "genre"
               = if forallb isWhiteSpace (Home.genre st) then None
                 else Some (VStr (trim (Home.genre st)))).
  { home_body_lookup Hq. apply str_or_undefined_trim. }
  rewrite Ht, Hg.
  repeat split.
  - by destruct (Home.title st).
  - by destruct (Home.genre st).
  - by intros ->.
  - by intros ->.
Qed.

Lemma hint_means_left_out_witness :
  JSON_stringify (Home.config_of Home.initialState) !! "project_name" = None.
Proof.
  apply (hint_means_left_out Home.initialState Home.quality_initial).
  reflexivity.
Defined.

(** ** Word count (StreamingOutput, FileViewer) *)

Section Words.

Import StreamingOutput.

Local Abbreviation W cur gap s :=
  (List.filter truthy_string (split_from cur gap s)).

Lemma split_from_words (s cur : jsstring) (gap : bool) :
  forallb (fun c => negb (isWhiteSpace c)) cur = true ->
  Forall (fun w => w <> []
                   /\ forallb (fun c => negb (isWhiteSpace c)) w = true)
    (W cur gap s).
Proof.
  revert cur gap. induction s as [|c s IH]; intros cur gap Hcur.
  - cbn. destruct cur; cbn; repeat constructor; done.
  - cbn [split_from]. destruct (isWhiteSpace c) eqn:Hc.
    + destruct gap; [by apply IH|].
      cbn [List.filter].
      destruct cur as [|a cur]; cbn [truthy_string];
        [by apply IH|].
      constructor; [done | by apply IH].
    + apply IH. rewrite forallb_app, Hcur. cbn. by rewrite Hc.
Qed.

Lemma split_from_gap (s : jsstring) : W [] true s = W [] false s.
Proof. destruct s as [|c s]; cbn; [done|]. by destruct (isWhiteSpace c). Qed.

Lemma split_from_pending (s cur : jsstring) (gap : bool) :
  cur <> [] -> W cur gap s <> [].
Proof.
  revert cur gap. induction s as [|c s IH]; intros cur gap Hcur.
  - cbn. by destruct cur.
  - cbn [split_from]. destruct (isWhiteSpace c).
    + destruct gap; [by apply IH|]. cbn [List.filter]. by destruct cur.
    + apply IH. by destruct cur.
Qed.

Lemma split_from_blank (s : jsstring) (gap : bool) :
  W [] gap s = [] <-> forallb isWhiteSpace s = true.
Proof.
  revert gap. induction s as [|c s IH]; intros gap; [done|].
  cbn [split_from forallb]. destruct (isWhiteSpace c); cbn [andb].
  - destruct gap; [apply IH|]. cbn [List.filter truthy_string]. apply IH.
  - split; [|done]. intros H. by apply split_from_pending in H.
Qed.

Lemma split_from_app (a b cur : jsstring) (gap : bool) (c : N) :
  isWhiteSpace c = true ->
  (gap = true -> cur = []) ->
  W cur gap (a ++ c :: b) = W cur gap a ++ W [] false b.
Proof.
  intros Hc. revert cur gap.
  induction a as [|x a IH]; intros cur gap Hinv.
  - cbn [app split_from]. rewrite Hc. destruct gap.
    + rewrite (Hinv eq_refl). cbn. apply split_from_gap.
    + cbn [List.filter]. rewrite split_from_gap.
      by destruct (truthy_string cur).
  - cbn [app split_from]. destruct (isWhiteSpace x).
    + destruct gap; [by apply IH|].
      cbn [List.filter]. rewrite IH by done.
      by destruct (truthy_string cur).
    + by apply IH.
Qed.

Lemma words_app (a b : jsstring) (c : N) :
  isWhiteSpace c = true -> words (a ++ c :: b) = words a ++ words b.
Proof. intros Hc. by apply split_from_app. Qed.

Lemma words_blank (s : jsstring) :
  words s = [] <-> forallb isWhiteSpace s = true.
Proof. apply split_from_blank. Qed.

Lemma words_pad (pre s post : jsstring) :
  forallb isWhiteSpace pre = true ->
  forallb isWhiteSpace post = true ->
  words (pre ++ s ++ post) = words s.
Proof.
  intros Hpre Hpost.
  assert (Hl : forall t, words (pre ++ t) = words t).
  { intros t. destruct pre as [|c pre _] using rev_ind; [done|].
    rewrite forallb_app in Hpre. apply andb_true_iff in Hpre as [H1 H2].
    cbn in H2. rewrite andb_true_r in H2.
    rewrite <- app_assoc. cbn [app]. rewrite words_app by done.
    apply words_blank in H1. by rewrite H1. }
  rewrite Hl. destruct post as [|c post]; [by rewrite app_nil_r|].
  cbn in Hpost. apply andb_true_iff in Hpost as [H1 H2].
  rewrite words_app by done. apply words_blank in H2.
  by rewrite H2, app_nil_r.
Qed.

Lemma split_from_run (w cur : jsstring) (gap : bool) :
  forallb (fun c => negb (isWhiteSpace c)) w = true ->
  split_from cur gap w = [cur ++ w].
Proof.
  revert cur gap. induction w as [|c w IH]; intros cur gap Hw.
  - by rewrite app_nil_r.
  - cbn [forallb] in Hw. apply andb_true_iff in Hw as [Hc Hw].
    cbn [split_from]. destruct (isWhiteSpace c); [done|].
    rewrite IH by done. by rewrite <- app_assoc.
Qed.

Lemma words_run (pre w rest : jsstring) :
  forallb isWhiteSpace pre = true ->
  w <> [] ->
  forallb (fun c => negb (isWhiteSpace c)) w = true ->
  (forall c, head rest = Some c -> isWhiteSpace c = true) ->
  words (pre ++ w ++ rest) = w :: words rest.
Proof.
  intros Hpre Hne Hw Hrest.
  assert (Hword : words w = [w]).
  { unfold words, split_whitespace. rewrite split_from_run by done.
    cbn [app List.filter]. by destruct w. }
  assert (Hl : forall t, words (pre ++ t) = words t).
  { intros t. rewrite <- (app_nil_r t) at 1. by apply words_pad. }
  rewrite Hl. destruct rest as [|c rest].
  - by rewrite app_nil_r, Hword.
  - specialize (Hrest c eq_refl).
    rewrite words_app, Hword by done.
    change (c :: rest) with ([] ++ c :: rest).
    by rewrite (words_app [] rest c Hrest).
Qed.

(** Content splits into leading white space and a rest that does not start
    with white space; and a string splits into its leading run without white
    space and a rest that is empty or starts with white space. *)
Lemma leading_white_space (s : jsstring) :
  exists pre t,
    s = pre ++ t /\ forallb isWhiteSpace pre = true
    /\ (forall c, head t = Some c -> isWhiteSpace c = false).
Proof.
  induction s as [|c s (pre & t & Hs & Hpre & Ht)].
  - by exists [], [].
  - destruct (isWhiteSpace c) eqn:Hc.
    + exists (c :: pre), t. rewrite Hs. cbn. by rewrite Hc.
    + exists [], (c :: s). split; [done|]. split; [done|].
      by intros ? [= <-].
Qed.

Lemma leading_run (t : jsstring) :
  exists w rest,
    t = w ++ rest
    /\ forallb (fun c => negb (isWhiteSpace c)) w = true
    /\ (forall c, head rest = Some c -> isWhiteSpace c = true).
Proof.
  induction t as [|c t (w & rest & Ht & Hw & Hrest)].
  - by exists [], [].
  - destruct (isWhiteSpace c) eqn:Hc.
    + exists [], (c :: t). split; [done|]. split; [done|].
      by intros ? [= <-].
    + exists (c :: w), rest. rewrite Ht. cbn. by rewrite Hc.
Qed.

Lemma runs_words_of_length (n : nat) (s : jsstring) :
  (length s < n)%nat -> runs s (words s).
Proof.
  revert s. induction n as [|n IH]; intros s Hlen; [lia|].
  destruct (forallb isWhiteSpace s) eqn:Hblank.
  { rewrite (proj2 (words_blank s) Hblank). by constructor. }
  destruct (leading_white_space s) as (pre & t & Hs & Hpre & Ht).
  destruct (leading_run t) as (w & rest & Hw & Hfree & Hrest).
  assert (Hne : w <> []).
  { intros ->. cbn [app] in Hw. subst t.
    destruct rest as [|c rest].
    - rewrite app_nil_r in Hs. congruence.
    - specialize (Ht c eq_refl). specialize (Hrest c eq_refl). congruence. }
  subst t. subst s. rewrite words_run by done.
  constructor; try done. apply IH.
  rewrite !length_app in Hlen. destruct w; [done|]. cbn [length] in Hlen. lia.
Qed.

Lemma runs_words (s : jsstring) : runs s (words s).
Proof. apply (runs_words_of_length (S (length s))). lia. Qed.

Lemma runs_unique (s : jsstring) (l : list jsstring) :
  runs s l -> l = words s.
Proof.
  induction 1 as [s Hs|pre w rest l Hpre Hne Hw Hrest _ IH].
  - symmetry. by apply words_blank.
  - rewrite words_run by done. by rewrite IH.
Qed.

End Words.

(** X23. The word count of the footers counts the maximal runs of code
    units that are not white space: every counted word is non-empty and free
    of white space, the count is 0 exactly for blank content, and white
    space at either end of the content does not change it.  The counted
    words are the runs of the content, in order: blank content has none, and
    content made of white space, a run without white space and a rest that
    is empty or starts with white space has that run followed by the runs of
    the rest; no other list is. *)
Theorem word_count_counts_words (content : jsstring) :
  Forall (fun w => w <> []
                   /\ forallb (fun c => negb (isWhiteSpace c)) w = true)
    (StreamingOutput.words content)
  /\ (StreamingOutput.wordCount content = 0
      <-> forallb isWhiteSpace content = true)
  /\ StreamingOutput.wordCount (trim content)
     = StreamingOutput.wordCount content
  /\ StreamingOutput.runs content (StreamingOutput.words content)
  /\ (forall l, StreamingOutput.runs content l ->
      l = StreamingOutput.words content
      /\ StreamingOutput.wordCount content = Z.of_nat (length l)).
Proof.
  split; [by apply split_from_words|]. split; [|split; [|split]].
  - unfold StreamingOutput.wordCount. rewrite <- words_blank.
    destruct (StreamingOutput.words content); [done|]. split; [|done].
    cbn [length]. lia.
  - unfold StreamingOutput.wordCount.
    destruct (trim_is_trim_of content) as (pre & post & Hs & Hpre & Hpost & _).
    rewrite Hs at 2. by rewrite words_pad.
  - apply runs_words.
  - intros l Hl. apply runs_unique in Hl. by subst l.
Qed.

(** X24. Word counts add up across white space: the words of two pieces of
    content joined by a white-space code unit are the words of the first
    followed by the words of the second. *)
Theorem word_count_additive (a b : jsstring) (c : N) :
  isWhiteSpace c = true ->
  StreamingOutput.words (a ++ c :: b)
  = StreamingOutput.words a ++ StreamingOutput.words b
  /\ StreamingOutput.wordCount (a ++ c :: b)
     = StreamingOutput.wordCount a + StreamingOutput.wordCount b.
Proof.
  intros Hc. unfold StreamingOutput.wordCount.
  rewrite words_app by done. split; [done|].
  rewrite length_app. lia.
Qed.

Lemma word_count_additive_witness :
  StreamingOutput.wordCount (str "It was a dark" ++ 10%N :: str "and stormy night")
  = StreamingOutput.wordCount (str "It was a dark")
    + StreamingOutput.wordCount (str "and stormy night").
Proof.
  exact (proj2 (word_count_additive (str "It was a dark")
                  (str "and stormy night") 10%N eq_refl)).
Defined.

(** ** FileViewer *)

Lemma getFileIcon_chunk (pre post : jsstring) :
  FileViewer.getFileIcon (pre ++ str "chunk" ++ post) = FileViewer.icon_book.
Proof.
  unfold FileViewer.getFileIcon.
  assert (H : includes (pre ++ str "chunk" ++ post) (str "chunk") = true)
    by (apply includes_iff; by exists pre, post).
  by rewrite H.
Qed.

(** X25. A file name that contains "chunk" gets the book icon whatever else
    it contains.  So every file the approval modal lists for a chunk request
    is shown with the book icon, for every payload, and its four planning
    files get the clipboard, person, construction and memo icons. *)
Theorem approval_files_icons
    (approvalData : option ApprovalModal.ApprovalData)
    (pre post : jsstring) :
  FileViewer.getFileIcon (pre ++ str "chunk" ++ post) = FileViewer.icon_book
  /\ Forall (fun entry =>
               FileViewer.getFileIcon (ApprovalModal.artifact_of entry)
               = FileViewer.icon_book)
       (ApprovalModal.files
          (ApprovalModal.getApprovalInfo (VStr (str "chunk")) approvalData))
  /\ List.map (fun entry =>
                 FileViewer.getFileIcon (ApprovalModal.artifact_of entry))
       (ApprovalModal.files
          (ApprovalModal.getApprovalInfo (VStr (str "plan")) approvalData))
     = [ FileViewer.icon_clipboard; FileViewer.icon_person;
         FileViewer.icon_construction; FileViewer.icon_memo ].
Proof.
  split; [apply getFileIcon_chunk|]. split; [|reflexivity].
  change (ApprovalModal.files
            (ApprovalModal.getApprovalInfo (VStr (str "chunk")) approvalData))
    with [ str "chunk_" ++ ApprovalModal.chunk_label approvalData
             ++ str ".txt - Chunk content" ].
  constructor; [|constructor].
  rewrite (artifact_of_app (str "chunk_")) by (repeat constructor).
  change (str "chunk_") with ([] ++ str "chunk" ++ str "_").
  rewrite <- !app_assoc. apply (getFileIcon_chunk []).
Qed.

(** X26. The file list keeps the order of the project's files and shows a
    file exactly when the lower-cased query occurs in its lower-cased name.
    With an empty search box, whose lower-case form is empty, every file is
    shown and the footer gives the plain count with no "filtered from". *)
Theorem file_search (toLowerCase : jsstring -> jsstring)
    (files : list jsstring) (searchQuery : jsstring) :
  toLowerCase [] = [] ->
  sublist (FileViewer.filteredFiles toLowerCase files searchQuery) files
  /\ (forall file,
        In file (FileViewer.filteredFiles toLowerCase files searchQuery) <->
        In file files
        /\ exists pre post,
             toLowerCase file = pre ++ toLowerCase searchQuery ++ post)
  /\ FileViewer.filteredFiles toLowerCase files [] = files
  /\ FileViewer.fileCount toLowerCase files []
     = decimal (N.of_nat (length files)) ++ str " "
       ++ (if (N.of_nat (length files) =? 1)%N then str "file"
           else str "files").
Proof.
  intros Hlow.
  assert (Hall : FileViewer.filteredFiles toLowerCase files [] = files).
  { unfold FileViewer.filteredFiles. rewrite Hlow.
    induction files as [|f l IH]; cbn [List.filter]; [done|].
    by rewrite includes_nil, IH. }
  split; [apply filter_sublist|]. split; [|split; [exact Hall|]].
  - intros file. unfold FileViewer.filteredFiles.
    by rewrite filter_In, includes_iff.
  - unfold FileViewer.fileCount. rewrite Hall. cbn [truthy_string].
    by rewrite !app_nil_r.
Qed.

Lemma file_search_witness :
  FileViewer.filteredFiles (fun s => s)
    [str "summary.txt"; str "chunk_1.txt"] []
  = [str "summary.txt"; str "chunk_1.txt"].
Proof.
  exact (proj1 (proj2 (proj2 (file_search (fun s => s)
                                [str "summary.txt"; str "chunk_1.txt"] []
                                eq_refl)))).
Defined.

(** ** ConfigPanel, further *)

Lemma submit_fst (f : ConfigPanel.Form) :
  fst (ConfigPanel.submit f)
  = {| ConfigPanel.form_config := ConfigPanel.form_config f;
       ConfigPanel.form_errors :=
         Some <$> ConfigPanel.newErrors (ConfigPanel.form_config f) |}.
Proof.
  unfold ConfigPanel.submit, ConfigPanel.handleSubmit, ConfigPanel.validate.
  cbn [ConfigPanel.config].
  by destruct (bool_decide _).
Qed.

Lemma error_shown_submit (f : ConfigPanel.Form) (k : string) :
  ConfigPanel.error_shown (ConfigPanel.form_errors (fst (ConfigPanel.submit f))) k
  = bool_decide (is_Some (ConfigPanel.newErrors (ConfigPanel.form_config f) !! k)).
Proof.
  rewrite submit_fst. cbn [ConfigPanel.form_errors].
  unfold ConfigPanel.error_shown. rewrite lookup_fmap.
  destruct (newErrors_lookup (ConfigPanel.form_config f)) as (L1 & L2 & L3 & L4).
  destruct (ConfigPanel.newErrors (ConfigPanel.form_config f) !! k)
    as [m|] eqn:Hk; cbn; [|done].
  assert (Hm : m <> []); [|by destruct m].
  intros ->. revert Hk. unfold ConfigPanel.newErrors.
  repeat match goal with
         | |- context [if ?b then _ else _] => destruct b
         end;
    rewrite ?lookup_insert, ?lookup_empty;
    repeat case_decide; done.
Qed.

(** X27. Typing into a field clears the error shown for that field at once,
    whatever was typed, and touches nothing else: the errors of all other
    fields stay as they are, and so do all other properties of the config. *)
Theorem change_clears_own_error (e : ConfigPanel.Edit) (f : ConfigPanel.Form) :
  let f' := ConfigPanel.handleChange e f in
  ConfigPanel.error_shown (ConfigPanel.form_errors f') (ConfigPanel.field_of e)
  = false
  /\ (forall k : string, k <> ConfigPanel.field_of e ->
      ConfigPanel.form_errors f' !! k = ConfigPanel.form_errors f !! k)
  /\ (forall k : string, k <> ConfigPanel.field_of e ->
      ConfigPanel.config_obj (ConfigPanel.form_config f') !! k
      = ConfigPanel.config_obj (ConfigPanel.form_config f) !! k).
Proof.
  cbn zeta. unfold ConfigPanel.handleChange.
  cbn [ConfigPanel.form_errors ConfigPanel.form_config].
  split; [|split].
  - destruct (ConfigPanel.error_shown (ConfigPanel.form_errors f)
                (ConfigPanel.field_of e)) eqn:E; [|exact E].
    unfold ConfigPanel.error_shown. by rewrite lookup_insert_eq.
  - intros k Hk.
    destruct (ConfigPanel.error_shown _ _); [|done].
    by rewrite lookup_insert_ne.
  - intros k Hk. unfold ConfigPanel.config_obj.
    destruct (ConfigPanel.form_config f)
      as [pn th mi nl wc ge ws cs mp mw rp rc].
    destruct e; cbn in Hk |- *; rewrite !lookup_insert;
      repeat (case_decide; [subst; done || congruence|]);
      done.
Qed.

(** X28. Submitting brings an error back exactly when the field is still
    wrong: after typing a project name (or a theme) and submitting, the
    error for it is shown if and only if what was typed is blank. *)
Theorem retyped_name_checked_on_submit (v : jsstring) (f : ConfigPanel.Form) :
  ConfigPanel.error_shown
    (ConfigPanel.form_errors
       (fst (ConfigPanel.submit
               (ConfigPanel.handleChange (ConfigPanel.EditProjectName v) f))))
    "project_name"
  = forallb isWhiteSpace v
  /\ ConfigPanel.error_shown
       (ConfigPanel.form_errors
          (fst (ConfigPanel.submit
                  (ConfigPanel.handleChange (ConfigPanel.EditTheme v) f))))
       "theme"
     = forallb isWhiteSpace v.
Proof.
  destruct f as [[pn th mi nl wc ge ws cs mp mw rp rc] errs].
  rewrite !error_shown_submit.
  split.
  - destruct (newErrors_lookup
                (ConfigPanel.form_config
                   (ConfigPanel.handleChange (ConfigPanel.EditProjectName v)
                      {| ConfigPanel.form_config :=
                           ConfigPanel.Build_Config
                             pn th mi nl wc ge ws cs mp mw rp rc;
                         ConfigPanel.form_errors := errs |})))
      as (L & _). rewrite L.
    cbn [ConfigPanel.handleChange ConfigPanel.form_config
         ConfigPanel.apply_edit ConfigPanel.project_name ConfigPanel.blank].
    rewrite truthy_trim, negb_involutive.
    destruct (forallb isWhiteSpace v);
      [by apply bool_decide_eq_true_2
      | apply bool_decide_eq_false_2; by intros [? ?]].
  - destruct (newErrors_lookup
                (ConfigPanel.form_config
                   (ConfigPanel.handleChange (ConfigPanel.EditTheme v)
                      {| ConfigPanel.form_config :=
                           ConfigPanel.Build_Config
                             pn th mi nl wc ge ws cs mp mw rp rc;
                         ConfigPanel.form_errors := errs |})))
      as (_ & L & _). rewrite L.
    cbn [ConfigPanel.handleChange ConfigPanel.form_config
         ConfigPanel.apply_edit ConfigPanel.theme ConfigPanel.blank].
    rewrite truthy_trim, negb_involutive.
    destruct (forallb isWhiteSpace v);
      [by apply bool_decide_eq_true_2
      | apply bool_decide_eq_false_2; by intros [? ?]].
Qed.

(** X29. The word-count input stores [null] for an input that parses to 0
    or to no number, and the parsed number otherwise.  With the custom
    length selected, submitting then shows the word-count error exactly when
    the parsed value is not a number of at least 1000; with any other length
    selected it never shows it, whatever the word count. *)
Theorem word_count_checked_on_submit (parsed : number) (f : ConfigPanel.Form) :
  let f' := ConfigPanel.handleChange (ConfigPanel.EditCustomWordCount parsed) f in
  let shown :=
    ConfigPanel.error_shown (ConfigPanel.form_errors (fst (ConfigPanel.submit f')))
      "custom_word_count" in
  ConfigPanel.custom_word_count (ConfigPanel.form_config f')
  = (if truthy_number parsed then Some parsed else None)
  /\ ConfigPanel.novel_length (ConfigPanel.form_config f')
     = ConfigPanel.novel_length (ConfigPanel.form_config f)
  /\ (ConfigPanel.novel_length (ConfigPanel.form_config f) = Some (str "custom") ->
      (shown = false <-> ConfigPanel.at_least_1000 (Some parsed)))
  /\ (ConfigPanel.novel_length (ConfigPanel.form_config f) <> Some (str "custom") ->
      shown = false).
Proof.
  destruct f as [[pn th mi nl wc ge ws cs mp mw rp rc] errs].
  cbn zeta. rewrite error_shown_submit.
  destruct (newErrors_lookup
              (ConfigPanel.form_config
                 (ConfigPanel.handleChange
                    (ConfigPanel.EditCustomWordCount parsed)
                    {| ConfigPanel.form_config :=
                         ConfigPanel.Build_Config
                           pn th mi nl wc ge ws cs mp mw rp rc;
                       ConfigPanel.form_errors := errs |})))
    as (_ & _ & L & _). rewrite L. clear L.
  cbn [ConfigPanel.handleChange ConfigPanel.form_config ConfigPanel.apply_edit
       ConfigPanel.custom_word_count ConfigPanel.novel_length].
  split; [done|]. split; [done|].
  assert (Hw : ConfigPanel.word_count_too_small
                 (if truthy_number parsed then Some parsed else None) = false
               <-> ConfigPanel.at_least_1000 (Some parsed)).
  { rewrite <- word_count_ok_iff.
    destruct (truthy_number parsed) eqn:T; [done|].
    cbn. rewrite T. done. }
  split.
  - intros Hc. rewrite (bool_decide_eq_true_2 _ Hc). cbn [andb].
    rewrite <- Hw.
    destruct (ConfigPanel.word_count_too_small _).
    + rewrite bool_decide_eq_true_2 by (by eexists). done.
    + rewrite bool_decide_eq_false_2 by (by intros [? ?]). done.
  - intros Hc. rewrite (bool_decide_eq_false_2 _ Hc). cbn [andb].
    apply bool_decide_eq_false_2. by intros [? ?].
Qed.

Lemma word_count_checked_on_submit_witness :
  ConfigPanel.error_shown
    (ConfigPanel.form_errors
       (fst (ConfigPanel.submit
               (ConfigPanel.handleChange
                  (ConfigPanel.EditCustomWordCount (Fin 500))
                  {| ConfigPanel.form_config := ConfigPanel.defaultConfig;
                     ConfigPanel.form_errors := ∅ |}))))
    "custom_word_count" = false.
Proof.
  apply (word_count_checked_on_submit (Fin 500)
           {| ConfigPanel.form_config := ConfigPanel.defaultConfig;
              ConfigPanel.form_errors := ∅ |}).
  vm_compute. discriminate.
Defined.

(** ** Witnesses at concrete inputs *)

Lemma decision_on_the_wire_witness :
  exists body,
    Api.req_body
      (Api.submitApproval (str "http://localhost:8000/api") (str "novel_1")
         (ApprovalModal.decision_obj
            (ApprovalModal.decision_of
               (fst (ApprovalModal.click ApprovalModal.RejectButton
                       (str "  "))))))
    = Some body
    /\ body !! "approved" = Some (VBool false)
    /\ body !! "notes" = None.
Proof.
  destruct (decision_on_the_wire (str "http://localhost:8000/api")
              (str "novel_1") (str "  ") ApprovalModal.RejectButton)
    as (_ & _ & _ & body & Hb & Ha & Hn & _).
  exists body. split; [exact Hb|]. split; [exact Ha | exact Hn].
Defined.

Lemma request_headers_witness :
  Api.req_headers
    (Api.request (str "http://localhost:8000/api") (str "/projects")
       {| Api.headers := Some {[ "Authorization" := str "Bearer t" ]};
          Api.method := None; Api.body := None |})
  !! "Content-Type" = None.
Proof.
  exact (proj1 (request_headers (str "http://localhost:8000/api")
                  (str "/projects") (str "novel_1")
                  {| Api.headers := Some {[ "Authorization" := str "Bearer t" ]};
                     Api.method := None; Api.body := None |} ∅)).
Defined.

Lemma change_clears_own_error_witness :
  ConfigPanel.error_shown
    (ConfigPanel.form_errors
       (ConfigPanel.handleChange (ConfigPanel.EditTheme (str " "))
          (fst (ConfigPanel.submit
                  {| ConfigPanel.form_config := ConfigPanel.defaultConfig;
                     ConfigPanel.form_errors := ∅ |}))))
    "project_name" = true.
Proof.
  unfold ConfigPanel.error_shown.
  rewrite (proj1 (proj2 (change_clears_own_error
                           (ConfigPanel.EditTheme (str " "))
                           (fst (ConfigPanel.submit
                                   {| ConfigPanel.form_config :=
                                        ConfigPanel.defaultConfig;
                                      ConfigPanel.form_errors := ∅ |}))))
             "project_name" ltac:(discriminate)).
  reflexivity.
Defined.
